(** * peeq: the connection and introspection engine of [app.go]

    A shallow embedding of the [App] methods of [app.go]
    ([saveConnection], [GetConnections], [DeleteConnection],
    [ConnectToDatabase], [GetTables], [GetTableData], [getColumnInfo],
    [TestConnection]) together with the properties of the connection
    manager, the schema introspector and the data reader.

    The Go code talks to two libraries that are not part of the
    repository: gorm (the configuration store and [gorm.Open]) and
    database/sql (pools, queries, [Scan]).  Their behaviour is made
    explicit here: the configuration store is a value that the gorm calls
    transform, connection pools are tracked in a [World], and everything
    the servers answer during one call is read from an [Env]. *)

From Stdlib Require Import ZArith NArith Ascii String DecimalString List Lia.
From stdpp Require Import base strings gmap list.
Import ListNotations.

Local Open Scope string_scope.

(** ** Errors *)

(** One constructor per [fmt.Errorf] format string of [app.go]. *)
Inductive Format : Type :=
| FailedToSaveConnection        (* "failed to save connection: %v" *)
| FailedToGetConnections        (* "failed to get connections: %v" *)
| FailedToDeleteConnection      (* "failed to delete connection: %v" *)
| ConnectionNotFound            (* "connection not found: %v" *)
| UnsupportedDatabaseType       (* "unsupported database type: %s" *)
| FailedToConnectToDatabase     (* "failed to connect to database: %v" *)
| FailedToGetUnderlyingSqlDB    (* "failed to get underlying sql.DB: %v" *)
| FailedToPingDatabase          (* "failed to ping database: %v" *)
| NoActiveDatabaseConnection    (* "no active database connection" *)
| FailedToGetConnectionInfo     (* "failed to get connection info: %v" *)
| UnsupportedTypeForListing     (* "unsupported database type for table listing: %s" *)
| FailedToQueryTables           (* "failed to query tables: %v" *)
| FailedToGetColumnInfo         (* "failed to get column info: %v" *)
| FailedToGetTotalCount         (* "failed to get total count: %v" *)
| FailedToQueryTableData        (* "failed to query table data: %v" *)
| FailedToGetColumnNames        (* "failed to get column names: %v" *)
| FailedToConnect.              (* "failed to connect: %v" *)

Definition format_text (f : Format) : string :=
  match f with
  | FailedToSaveConnection => "failed to save connection: "
  | FailedToGetConnections => "failed to get connections: "
  | FailedToDeleteConnection => "failed to delete connection: "
  | ConnectionNotFound => "connection not found: "
  | UnsupportedDatabaseType => "unsupported database type: "
  | FailedToConnectToDatabase => "failed to connect to database: "
  | FailedToGetUnderlyingSqlDB => "failed to get underlying sql.DB: "
  | FailedToPingDatabase => "failed to ping database: "
  | NoActiveDatabaseConnection => "no active database connection"
  | FailedToGetConnectionInfo => "failed to get connection info: "
  | UnsupportedTypeForListing => "unsupported database type for table listing: "
  | FailedToQueryTables => "failed to query tables: "
  | FailedToGetColumnInfo => "failed to get column info: "
  | FailedToGetTotalCount => "failed to get total count: "
  | FailedToQueryTableData => "failed to query table data: "
  | FailedToGetColumnNames => "failed to get column names: "
  | FailedToConnect => "failed to connect: "
  end.

(** A Go [error]: either a value produced inside gorm or database/sql
    ([LibErr], known only by its message) or the result of one of the
    [fmt.Errorf] calls of [app.go], whose single argument is printed with
    [%v] or [%s]. *)
Inductive error : Type :=
| LibErr (msg : string)
| Errorf (f : Format) (arg : string).

Definition Error (e : error) : string :=
  match e with
  | LibErr msg => msg
  | Errorf f arg => format_text f ++ arg
  end.

(** The error kinds of the specification. *)
Inductive ErrorKind : Type :=
| ProfileNotFound | UnsupportedBackend | ConnectionUnreachable
| NoActiveConnection | ColumnInfoUnavailable | CountFailed | QueryFailed
| StorageError.

Definition format_kind (f : Format) : ErrorKind :=
  match f with
  | FailedToSaveConnection | FailedToGetConnections
  | FailedToDeleteConnection | FailedToGetConnectionInfo => StorageError
  | ConnectionNotFound => ProfileNotFound
  | UnsupportedDatabaseType | UnsupportedTypeForListing => UnsupportedBackend
  | FailedToConnectToDatabase | FailedToGetUnderlyingSqlDB
  | FailedToPingDatabase | FailedToConnect => ConnectionUnreachable
  | NoActiveDatabaseConnection => NoActiveConnection
  | FailedToGetColumnInfo => ColumnInfoUnavailable
  | FailedToGetTotalCount => CountFailed
  | FailedToQueryTables | FailedToQueryTableData
  | FailedToGetColumnNames => QueryFailed
  end.

(** Library errors carry no kind of their own. *)
Definition kind (e : error) : option ErrorKind :=
  match e with
  | LibErr _ => None
  | Errorf f _ => Some (format_kind f)
  end.

(** A Go [(T, error)] result. *)
Inductive result (A : Type) : Type :=
| Ok (a : A)
| Err (e : error).
Arguments Ok {A} a.
Arguments Err {A} e.

(** ** Data model *)

Module Connection.
Record t : Type := mk {
  ID : N;               (* uint, gorm:"primaryKey" *)
  Name : string;
  Type_ : string;       (* field [Type] *)
  DSN : string;
  CreatedAt : Z;
  UpdatedAt : Z
}.
(** The zero value a [var connection Connection] starts with. *)
Definition zero : t := mk 0%N "" "" "" 0%Z 0%Z.
End Connection.

Module TableInfo.
Record t : Type := mk {
  Name : string;
  RowCount : Z;         (* int64 *)
  Schema : string
}.
End TableInfo.

Module ColumnInfo.
Record t : Type := mk {
  Name : string;
  Type_ : string;
  Nullable : bool;
  DefaultValue : string;
  IsPrimaryKey : bool
}.
Definition zero : t := mk "" "" false "" false.
End ColumnInfo.

(** A value handed over by a database/sql driver ([driver.Value]) and,
    in [GetTableData], stored in an [interface{}].  Floats and times are
    never inspected by [app.go]; they are carried as opaque payloads. *)
Inductive Value : Type :=
| VNil
| VInt (i : Z)
| VFloat (bits : Z)
| VBool (b : bool)
| VBytes (b : list Byte.byte)
| VString (s : string)
| VTime (t : Z).

Module TableData.
Record t : Type := mk {
  Columns : list ColumnInfo.t;
  Rows : list (gmap string Value);      (* []map[string]interface{} *)
  Total : Z
}.
End TableData.

(** ** The configuration store (gorm over SQLite, file [config.db]) *)

(** The [connections] table: its rows in storage order and the
    AUTOINCREMENT counter SQLite keeps for it. *)
Record ConfigDB : Type := {
  rows : list Connection.t;
  sqlite_seq : N
}.

Definition max_id (l : list Connection.t) : N :=
  fold_right (fun c m => N.max (Connection.ID c) m) 0%N l.

(** Largest rowid SQLite can assign (2^63 - 1). *)
Definition max_rowid : N := 9223372036854775807%N.

Definition gorm_ErrRecordNotFound : error := LibErr "record not found".

Fixpoint find_id (id : N) (l : list Connection.t) : option Connection.t :=
  match l with
  | [] => None
  | c :: l' => if N.eqb (Connection.ID c) id then Some c else find_id id l'
  end.

(** [db.Create(&conn)] with a zero [ID]: the row gets the next
    AUTOINCREMENT id, one more than the largest id ever used, and the
    current time in both timestamps.  [fault] is the driver error of this
    call, if any. *)
Definition gorm_Create (fault : option string) (now : Z) (conn : Connection.t)
    (db : ConfigDB) : result Connection.t * ConfigDB :=
  match fault with
  | Some msg => (Err (LibErr msg), db)
  | None =>
      let last := N.max (sqlite_seq db) (max_id (rows db)) in
      if (max_rowid <=? last)%N then (Err (LibErr "database or disk is full"), db)
      else
        let id := (last + 1)%N in
        let c := Connection.mk id (Connection.Name conn) (Connection.Type_ conn)
                   (Connection.DSN conn) now now in
        (Ok c, {| rows := rows db ++ [c]; sqlite_seq := id |})
  end.

(** [db.Find(&connections)]. *)
Definition gorm_Find_all (fault : option string) (db : ConfigDB)
    : result (list Connection.t) :=
  match fault with
  | Some msg => Err (LibErr msg)
  | None => Ok (rows db)
  end.

(** [db.Find(&connection, id)]: [Find] does not report a missing record;
    the destination keeps the value it had, here the zero value. *)
Definition gorm_Find (fault : option string) (db : ConfigDB) (id : N)
    : result Connection.t :=
  match fault with
  | Some msg => Err (LibErr msg)
  | None =>
      match find_id id (rows db) with
      | Some c => Ok c
      | None => Ok Connection.zero
      end
  end.

(** [db.First(&connection, id)]: fails with [ErrRecordNotFound] when no
    row has the id. *)
Definition gorm_First (fault : option string) (db : ConfigDB) (id : N)
    : result Connection.t :=
  match fault with
  | Some msg => Err (LibErr msg)
  | None =>
      match find_id id (rows db) with
      | Some c => Ok c
      | None => Err gorm_ErrRecordNotFound
      end
  end.

(** [db.Delete(&Connection{}, id)]: removes the rows with that id; deleting
    nothing is not an error. *)
Definition gorm_Delete (fault : option string) (db : ConfigDB) (id : N)
    : option error * ConfigDB :=
  match fault with
  | Some msg => (Some (LibErr msg), db)
  | None =>
      (None,
       {| rows := List.filter (fun c => negb (N.eqb (Connection.ID c) id)) (rows db);
          sqlite_seq := sqlite_seq db |})
  end.

(** ** Connection pools *)

(** A [*sql.DB] is known by its identity. *)
Definition SqlDB : Type := nat.

(** A [*gorm.DB]; [DB()] below returns its pool when it has one. *)
Record GormDB : Type := { ConnPool : option SqlDB }.

Definition gorm_ErrInvalidDB : error := LibErr "invalid db".

Definition DB (db : GormDB) : result SqlDB :=
  match ConnPool db with
  | Some p => Ok p
  | None => Err gorm_ErrInvalidDB
  end.

(** The pools created so far that have not been closed. *)
Record World : Type := {
  nextPool : nat;
  openPools : gset nat
}.

Definition sql_Close (p : SqlDB) (w : World) : World :=
  {| nextPool := nextPool w; openPools := openPools w ∖ {[p]} |}.

(** ** What the database servers answer *)

(** The queries [app.go] sends, by the statement they are built from. *)
Inductive Query : Type :=
| ListTablesPostgres
    (* SELECT table_name FROM information_schema.tables
       WHERE table_schema = 'public' AND table_type = 'BASE TABLE' *)
| ListTablesSqlite
    (* SELECT name FROM sqlite_master
       WHERE type = 'table' AND name NOT LIKE 'sqlite_%' *)
| CountRows (table : string)
    (* fmt.Sprintf("SELECT COUNT( * ) FROM %s", tableName) *)
| SelectPage (table : string) (limit offset : Z)
    (* fmt.Sprintf("SELECT * FROM %s LIMIT %d OFFSET %d", tableName, limit, offset) *)
| ColumnsPostgres (table : string)
    (* SELECT column_name, data_type, is_nullable, column_default, is_primary
       ... WHERE c.table_name = $1 ORDER BY c.ordinal_position *)
| PragmaTableInfo (table : string).
    (* fmt.Sprintf("PRAGMA table_info(%s)", tableName) *)

(** A [*sql.Rows]: what [Columns()] returns and the records [Next()]
    walks through, each a sequence of driver values. *)
Record Rows : Type := {
  columns : result (list string);
  records : list (list Value)
}.

(** Everything outside the process that one call of an [App] method
    observes. *)
Record Env : Type := {
  now : Z;                                     (* the clock, for gorm's timestamps *)
  storeFault : option string;                  (* driver error of config.db, if any *)
  dial : string -> string -> option string;    (* gorm.Open(<driver>.Open(dsn)); None: success *)
  ping : SqlDB -> option string;               (* sqlDB.Ping(); None: success *)
  query : SqlDB -> Query -> result Rows        (* sqlDB.Query *)
}.

(** [gorm.Open] with the postgres or sqlite dialector: on success a new
    pool exists and the returned [*gorm.DB] holds it. *)
Definition gorm_Open (env : Env) (driver dsn : string) (w : World)
    : result GormDB * World :=
  match dial env driver dsn with
  | Some msg => (Err (LibErr msg), w)
  | None =>
      let p := nextPool w in
      (Ok {| ConnPool := Some p |},
       {| nextPool := S p; openPools := {[p]} ∪ openPools w |})
  end.

(** database/sql's [convertAssign] into the destination types [app.go]
    scans into.  It belongs to the Go standard library and is taken as
    given. *)
Class SqlConv : Type := {
  asString : Value -> option string;    (* destination *string *)
  asInt : Value -> option Z;            (* destination *int, *int64 *)
  asBool : Value -> option bool;        (* destination *bool *)
  (* a text or byte source is copied into a string, an int64 into an integer *)
  asString_text : forall s, asString (VString s) = Some s;
  asString_bytes : forall b, asString (VBytes b) = Some (string_of_list_byte b);
  asInt_int : forall i, asInt (VInt i) = Some i
}.

Module NullString.
Record t : Type := mk { String_ : string; Valid : bool }.
End NullString.

Definition sql_ErrNoRows : error := LibErr "sql: no rows in result set".
Definition sql_ErrScan : error := LibErr "sql: Scan error".

(** ** The application *)

Record App : Type := {
  configDB : ConfigDB;
  activeDB : option GormDB;      (* nil is None *)
  activeConnID : N
}.

(** [NewApp()] followed by [startup], which opens the configuration
    store [cfg] found in [config.db]. *)
Definition NewApp (cfg : ConfigDB) : App :=
  {| configDB := cfg; activeDB := None; activeConnID := 0%N |}.

Definition emptyConfigDB : ConfigDB := {| rows := []; sqlite_seq := 0%N |}.

Definition emptyWorld : World := {| nextPool := 0; openPools := ∅ |}.

Definition saveConnection (env : Env) (name dbType dsn : string) (a : App)
    : option error * App :=
  let conn := Connection.mk 0%N name dbType dsn 0%Z 0%Z in
  match gorm_Create (storeFault env) (now env) conn (configDB a) with
  | (Err e, _) => (Some (Errorf FailedToSaveConnection (Error e)), a)
  | (Ok _, cfg) =>
      (None, {| configDB := cfg; activeDB := activeDB a; activeConnID := activeConnID a |})
  end.

Definition GetConnections (env : Env) (a : App) : result (list Connection.t) :=
  match gorm_Find_all (storeFault env) (configDB a) with
  | Err e => Err (Errorf FailedToGetConnections (Error e))
  | Ok connections => Ok connections
  end.

Definition DeleteConnection (env : Env) (id : N) (a : App) : option error * App :=
  match gorm_Delete (storeFault env) (configDB a) id with
  | (Some e, _) => (Some (Errorf FailedToDeleteConnection (Error e)), a)
  | (None, cfg) =>
      if N.eqb (activeConnID a) id
      then (None, {| configDB := cfg; activeDB := None; activeConnID := 0%N |})
      else (None, {| configDB := cfg; activeDB := activeDB a;
                     activeConnID := activeConnID a |})
  end.

Definition ConnectToDatabase (env : Env) (id : N) (a : App) (w : World)
    : option error * App * World :=
  match gorm_Find (storeFault env) (configDB a) id with
  | Err e => (Some (Errorf ConnectionNotFound (Error e)), a, w)
  | Ok connection =>
      let opened :=
        if String.eqb (Connection.Type_ connection) "postgres"
        then Some (gorm_Open env "postgres" (Connection.DSN connection) w)
        else if String.eqb (Connection.Type_ connection) "sqlite"
        then Some (gorm_Open env "sqlite" (Connection.DSN connection) w)
        else None in
      match opened with
      | None =>
          (Some (Errorf UnsupportedDatabaseType (Connection.Type_ connection)), a, w)
      | Some (Err e, w1) =>
          (Some (Errorf FailedToConnectToDatabase (Error e)), a, w1)
      | Some (Ok db, w1) =>
          match DB db with
          | Err e => (Some (Errorf FailedToGetUnderlyingSqlDB (Error e)), a, w1)
          | Ok sqlDB =>
              match ping env sqlDB with
              | Some msg => (Some (Errorf FailedToPingDatabase msg), a, w1)
              | None =>
                  (None,
                   {| configDB := configDB a; activeDB := Some db; activeConnID := id |},
                   w1)
              end
          end
      end
  end.

Definition TestConnection (env : Env) (dbType dsn : string) (a : App) (w : World)
    : option error * App * World :=
  let opened :=
    if String.eqb dbType "postgres" then Some (gorm_Open env "postgres" dsn w)
    else if String.eqb dbType "sqlite" then Some (gorm_Open env "sqlite" dsn w)
    else None in
  match opened with
  | None => (Some (Errorf UnsupportedDatabaseType dbType), a, w)
  | Some (Err e, w1) => (Some (Errorf FailedToConnect (Error e)), a, w1)
  | Some (Ok db, w1) =>
      match DB db with
      | Err e => (Some (Errorf FailedToGetUnderlyingSqlDB (Error e)), a, w1)
      | Ok sqlDB =>
          (* defer sqlDB.Close() runs on both returns below *)
          match ping env sqlDB with
          | Some msg => (Some (Errorf FailedToPingDatabase msg), a, sql_Close sqlDB w1)
          | None => (None, a, sql_Close sqlDB w1)
          end
      end
  end.

(** ** Schema introspection and data reading *)

Section Introspection.
Context `{conv : SqlConv}.

(** The [Scan] method of [sql.NullString]. *)
Definition scanNullString (v : Value) : option NullString.t :=
  match v with
  | VNil => Some (NullString.mk "" false)
  | _ => s ← asString v; Some (NullString.mk s true)
  end.

(** [sqlDB.QueryRow(q).Scan(&n)] with [n] an [int64]. *)
Definition QueryRow_Scan_int64 (env : Env) (sqlDB : SqlDB) (q : Query) : result Z :=
  match query env sqlDB q with
  | Err e => Err e
  | Ok rs =>
      match records rs with
      | [] => Err sql_ErrNoRows
      | [v] :: _ =>
          match asInt v with
          | Some n => Ok n
          | None => Err sql_ErrScan
          end
      | _ :: _ => Err sql_ErrScan
      end
  end.

(** [rows.Scan(&tableName)]. *)
Definition scanTableName (record : list Value) : option string :=
  match record with
  | [v] => asString v
  | _ => None
  end.

(** The body of the [for rows.Next()] loop of [GetTables], with the
    slice [tables] built so far. *)
Fixpoint GetTables_loop (env : Env) (sqlDB : SqlDB) (recs : list (list Value))
    (tables : list TableInfo.t) : list TableInfo.t :=
  match recs with
  | [] => tables
  | record :: rest =>
      match scanTableName record with
      | None => GetTables_loop env sqlDB rest tables          (* continue *)
      | Some tableName =>
          let count :=
            match QueryRow_Scan_int64 env sqlDB (CountRows tableName) with
            | Ok n => n
            | Err _ => 0%Z
            end in
          GetTables_loop env sqlDB rest
            (tables ++ [TableInfo.mk tableName count ""])
      end
  end.

Definition GetTables (env : Env) (a : App) : result (list TableInfo.t) :=
  match activeDB a with
  | None => Err (Errorf NoActiveDatabaseConnection "")
  | Some adb =>
      match DB adb with
      | Err e => Err (Errorf FailedToGetUnderlyingSqlDB (Error e))
      | Ok sqlDB =>
          match gorm_First (storeFault env) (configDB a) (activeConnID a) with
          | Err e => Err (Errorf FailedToGetConnectionInfo (Error e))
          | Ok connection =>
              let queried :=
                if String.eqb (Connection.Type_ connection) "postgres"
                then Some (query env sqlDB ListTablesPostgres)
                else if String.eqb (Connection.Type_ connection) "sqlite"
                then Some (query env sqlDB ListTablesSqlite)
                else None in
              match queried with
              | None =>
                  Err (Errorf UnsupportedTypeForListing (Connection.Type_ connection))
              | Some (Err e) => Err (Errorf FailedToQueryTables (Error e))
              | Some (Ok rs) => Ok (GetTables_loop env sqlDB (records rs) [])
              end
          end
      end
  end.

(** [rows.Scan(&col.Name, &col.Type, &nullable, &defaultVal, &col.IsPrimaryKey)]
    and the rest of the loop body for Postgres. *)
Definition scanPostgresColumn (record : list Value) : option ColumnInfo.t :=
  match record with
  | [v0; v1; v2; v3; v4] =>
      name ← asString v0;
      ty ← asString v1;
      nullable ← scanNullString v2;
      defaultVal ← scanNullString v3;
      isPrimary ← asBool v4;
      Some (ColumnInfo.mk name ty
              (String.eqb (NullString.String_ nullable) "YES")
              (if NullString.Valid defaultVal
               then NullString.String_ defaultVal else "")
              isPrimary)
  | _ => None
  end.

(** [rows.Scan(&cid, &col.Name, &col.Type, &notNull, &defaultVal, &pk)]
    and the rest of the loop body for SQLite. *)
Definition scanSqliteColumn (record : list Value) : option ColumnInfo.t :=
  match record with
  | [v0; v1; v2; v3; v4; v5] =>
      cid ← asInt v0;
      name ← asString v1;
      ty ← asString v2;
      notNull ← asInt v3;
      defaultVal ← scanNullString v4;
      pk ← asInt v5;
      Some (ColumnInfo.mk name ty
              (Z.eqb notNull 0)
              (if NullString.Valid defaultVal
               then NullString.String_ defaultVal else "")
              (Z.eqb pk 1))
  | _ => None
  end.

(** A [for rows.Next()] loop of [getColumnInfo]: a record that does
    not scan is skipped, the others are appended to [columns]. *)
Fixpoint getColumnInfo_loop (scan : list Value -> option ColumnInfo.t)
    (recs : list (list Value)) (columns : list ColumnInfo.t) : list ColumnInfo.t :=
  match recs with
  | [] => columns
  | record :: rest =>
      match scan record with
      | None => getColumnInfo_loop scan rest columns          (* continue *)
      | Some col => getColumnInfo_loop scan rest (columns ++ [col])
      end
  end.

(** [getColumnInfo] is only called from [GetTableData], after the nil
    check on [activeDB]; [adb] is that non-nil [a.activeDB]. *)
Definition getColumnInfo (env : Env) (a : App) (adb : GormDB) (tableName : string)
    : result (list ColumnInfo.t) :=
  match DB adb with
  | Err e => Err e
  | Ok sqlDB =>
      match gorm_First (storeFault env) (configDB a) (activeConnID a) with
      | Err e => Err e
      | Ok connection =>
          let ty := Connection.Type_ connection in
          let queried :=
            if String.eqb ty "postgres"
            then Some (query env sqlDB (ColumnsPostgres tableName))
            else if String.eqb ty "sqlite"
            then Some (query env sqlDB (PragmaTableInfo tableName))
            else None in
          match queried with
          | None => Err (Errorf UnsupportedDatabaseType ty)
          | Some (Err e) => Err e
          | Some (Ok rs) =>
              if String.eqb ty "postgres"
              then Ok (getColumnInfo_loop scanPostgresColumn (records rs) [])
              else if String.eqb ty "sqlite"
              then Ok (getColumnInfo_loop scanSqliteColumn (records rs) [])
              else Ok []
          end
      end
  end.

(** [rows.Scan(valuePtrs...)] into [len(columnNames)] destinations of
    type [*interface{}]: every driver value is assignable, so only the
    number of destinations can be wrong. *)
Definition scanValues (n : nat) (record : list Value) : option (list Value) :=
  if Nat.eqb (length record) n then Some record else None.

(** What [row[colName]] receives for the scanned value [v]. *)
Definition cell (v : Value) : Value :=
  match v with
  | VNil => VNil                                   (* row[colName] = nil *)
  | VBytes b => VString (string_of_list_byte b)    (* case []byte: string(v) *)
  | _ => v                                         (* default *)
  end.

(** [for i, colName := range columnNames], from index [i] on.
    [values] has [len(columnNames)] entries after a successful [Scan],
    so [values[i]] is always in range. *)
Fixpoint fillRow (columnNames : list string) (i : nat) (values : list Value)
    (row : gmap string Value) : gmap string Value :=
  match columnNames with
  | [] => row
  | colName :: rest =>
      fillRow rest (S i) values
        (<[colName := cell (default VNil (values !! i))]> row)
  end.

(** The [for rows.Next()] loop of [GetTableData]. *)
Fixpoint GetTableData_loop (columnNames : list string) (recs : list (list Value))
    (data : list (gmap string Value)) : list (gmap string Value) :=
  match recs with
  | [] => data
  | record :: rest =>
      match scanValues (length columnNames) record with
      | None => GetTableData_loop columnNames rest data       (* continue *)
      | Some values =>
          GetTableData_loop columnNames rest
            (data ++ [fillRow columnNames 0 values ∅])
      end
  end.

Definition GetTableData (env : Env) (tableName : string) (offset limit : Z) (a : App)
    : result TableData.t :=
  match activeDB a with
  | None => Err (Errorf NoActiveDatabaseConnection "")
  | Some adb =>
      match DB adb with
      | Err e => Err (Errorf FailedToGetUnderlyingSqlDB (Error e))
      | Ok sqlDB =>
          match getColumnInfo env a adb tableName with
          | Err e => Err (Errorf FailedToGetColumnInfo (Error e))
          | Ok cols =>
              match QueryRow_Scan_int64 env sqlDB (CountRows tableName) with
              | Err e => Err (Errorf FailedToGetTotalCount (Error e))
              | Ok total =>
                  match query env sqlDB (SelectPage tableName limit offset) with
                  | Err e => Err (Errorf FailedToQueryTableData (Error e))
                  | Ok rs =>
                      match columns rs with
                      | Err e => Err (Errorf FailedToGetColumnNames (Error e))
                      | Ok columnNames =>
                          Ok (TableData.mk cols
                                (GetTableData_loop columnNames (records rs) [])
                                total)
                      end
                  end
              end
          end
      end
  end.

(** One pass of the loop of [GetTables] as a function of the record. *)
Definition listTable (env : Env) (sqlDB : SqlDB) (record : list Value)
    : option TableInfo.t :=
  tableName ← scanTableName record;
  Some (TableInfo.mk tableName
          match QueryRow_Scan_int64 env sqlDB (CountRows tableName) with
          | Ok n => n
          | Err _ => 0%Z
          end "").

(** One pass of the loop of [GetTableData] as a function of the record. *)
Definition decodeRow (columnNames : list string) (record : list Value)
    : option (gmap string Value) :=
  values ← scanValues (length columnNames) record;
  Some (fillRow columnNames 0 values ∅).

End Introspection.

(** ** Sequences of calls *)

(** A call of one of the public operations. *)
Inductive Call : Type :=
| CallSave (name dbType dsn : string)
| CallList
| CallDelete (id : N)
| CallConnect (id : N)
| CallTestConnection (dbType dsn : string)
| CallListTables
| CallGetPage (table : string) (offset limit : Z).

(** The state a call leaves behind.  [GetConnections], [GetTables] and
    [GetTableData] assign to no field of the [App] and create no pool. *)
Definition step (env : Env) (c : Call) (s : App * World) : App * World :=
  let (a, w) := s in
  match c with
  | CallSave name dbType dsn => (snd (saveConnection env name dbType dsn a), w)
  | CallDelete id => (snd (DeleteConnection env id a), w)
  | CallConnect id =>
      let '(_, a', w') := ConnectToDatabase env id a w in (a', w')
  | CallTestConnection dbType dsn =>
      let '(_, a', w') := TestConnection env dbType dsn a w in (a', w')
  | CallList | CallListTables | CallGetPage _ _ _ => (a, w)
  end.

(** Calls are served one after the other, each in the environment of
    its own time. *)
Fixpoint run (calls : list (Env * Call)) (s : App * World) : App * World :=
  match calls with
  | [] => s
  | (env, c) :: rest => run rest (step env c s)
  end.

(** Every stored profile has an id of at least 1. *)
Definition ids_positive (cfg : ConfigDB) : Prop :=
  Forall (fun c => (1 <= Connection.ID c)%N) (rows cfg).

(** The handle and the id of the active connection are set together. *)
Definition active_consistent (a : App) : Prop :=
  activeDB a = None <-> activeConnID a = 0%N.

(** ** The conversions of database/sql, for text, integers and booleans *)

(** [strconv.ParseInt(s, 10, 64)]. *)
Definition parseInt (s : string) : option Z :=
  let digits :=
    match s with
    | String "+"%char (String "-"%char _) => None
    | String "+"%char rest => NilZero.int_of_string rest
    | _ => NilZero.int_of_string s
    end in
  match digits with
  | Some d =>
      let z := Z.of_int d in
      if ((- 2 ^ 63 <=? z) && (z <? 2 ^ 63))%Z then Some z else None
  | None => None
  end.

(** [strconv.ParseBool]. *)
Definition parseBool (s : string) : option bool :=
  if existsb (String.eqb s) ["1"; "t"; "T"; "TRUE"; "true"; "True"] then Some true
  else if existsb (String.eqb s) ["0"; "f"; "F"; "FALSE"; "false"; "False"] then Some false
  else None.

(** [convertAssign] on nil, text, byte, integer and boolean sources.
    The text database/sql prints for a float or a time is not modelled:
    this instance refuses those two sources. *)
#[export] Instance textConv : SqlConv := {|
  asString v :=
    match v with
    | VString s => Some s
    | VBytes b => Some (string_of_list_byte b)
    | VInt i => Some (NilZero.string_of_int (Z.to_int i))
    | VBool b => Some (if b then "true" else "false")
    | VNil | VFloat _ | VTime _ => None
    end;
  asInt v :=
    match v with
    | VInt i => Some i
    | VString s => parseInt s
    | VBytes b => parseInt (string_of_list_byte b)
    | VNil | VBool _ | VFloat _ | VTime _ => None
    end;
  asBool v :=
    match v with
    | VBool b => Some b
    | VInt 0 => Some false
    | VInt 1 => Some true
    | VString s => parseBool s
    | VBytes b => parseBool (string_of_list_byte b)
    | _ => None
    end;
  asString_text := fun _ => eq_refl;
  asString_bytes := fun _ => eq_refl;
  asInt_int := fun _ => eq_refl
|}.

(** ** A server holding tables *)

Inductive Dialect : Type := Postgres | Sqlite.

Definition driverName (d : Dialect) : string :=
  match d with
  | Postgres => "postgres"
  | Sqlite => "sqlite"
  end.

(** A base table: its declared columns and its rows, one value per
    column. *)
Record Table : Type := {
  tableName : string;
  tableColumns : list ColumnInfo.t;
  tableRows : list (list Value)
}.


Fixpoint find_table (name : string) (ts : list Table) : option Table :=
  match ts with
  | [] => None
  | t :: ts' => if String.eqb (tableName t) name then Some t else find_table name ts'
  end.

(** [LIMIT limit OFFSET offset] over the rows [l].  SQLite reads a
    negative limit as no limit and a negative offset as 0; Postgres
    rejects both. *)
Definition limit_offset {A : Type} (d : Dialect) (limit offset : Z) (l : list A)
    : option (list A) :=
  match d with
  | Sqlite =>
      let rest := skipn (Z.to_nat (Z.max 0 offset)) l in
      Some (if (limit <? 0)%Z then rest else firstn (Z.to_nat limit) rest)
  | Postgres =>
      if ((limit <? 0) || (offset <? 0))%Z then None
      else Some (firstn (Z.to_nat limit) (skipn (Z.to_nat offset) l))
  end.

Definition defaultValue (c : ColumnInfo.t) : Value :=
  if String.eqb (ColumnInfo.DefaultValue c) "" then VNil
  else VString (ColumnInfo.DefaultValue c).

(** A row of [PRAGMA table_info]: cid, name, type, notnull, dflt_value, pk. *)
Definition pragmaRecord (cid : nat) (c : ColumnInfo.t) : list Value :=
  [VInt (Z.of_nat cid); VString (ColumnInfo.Name c); VString (ColumnInfo.Type_ c);
   VInt (if ColumnInfo.Nullable c then 0 else 1); defaultValue c;
   VInt (if ColumnInfo.IsPrimaryKey c then 1 else 0)].

(** A row of the Postgres column query: column_name, data_type,
    is_nullable, column_default, is_primary. *)
Definition catalogRecord (c : ColumnInfo.t) : list Value :=
  [VString (ColumnInfo.Name c); VString (ColumnInfo.Type_ c);
   VString (if ColumnInfo.Nullable c then "YES" else "NO"); defaultValue c;
   VBool (ColumnInfo.IsPrimaryKey c)].

Definition tableNames (ts : list Table) : Rows :=
  {| columns := Ok ["name"];
     records := List.map (fun t => [VString (tableName t)]) ts |}.

Definition wrongDialect : error := LibErr "syntax error".
Definition noSuchTable : error := LibErr "no such table".

(** The answer of a server of dialect [d] holding the tables [ts]. *)
Definition server_query (d : Dialect) (ts : list Table) (q : Query) : result Rows :=
  match q, d with
  | ListTablesPostgres, Postgres => Ok (tableNames ts)
  | ListTablesSqlite, Sqlite => Ok (tableNames ts)
  | CountRows name, _ =>
      match find_table name ts with
      | Some t =>
          Ok {| columns := Ok ["count"];
                records := [[VInt (Z.of_nat (length (tableRows t)))]] |}
      | None => Err noSuchTable
      end
  | SelectPage name limit offset, _ =>
      match find_table name ts with
      | Some t =>
          match limit_offset d limit offset (tableRows t) with
          | Some rs =>
              Ok {| columns := Ok (List.map ColumnInfo.Name (tableColumns t));
                    records := rs |}
          | None => Err (LibErr "LIMIT and OFFSET must not be negative")
          end
      | None => Err noSuchTable
      end
  | ColumnsPostgres name, Postgres =>
      Ok {| columns := Ok ["column_name"; "data_type"; "is_nullable";
                           "column_default"; "is_primary"];
            records :=
              match find_table name ts with
              | Some t => List.map catalogRecord (tableColumns t)
              | None => []
              end |}
  | PragmaTableInfo name, Sqlite =>
      Ok {| columns := Ok ["cid"; "name"; "type"; "notnull"; "dflt_value"; "pk"];
            records :=
              match find_table name ts with
              | Some t => imap pragmaRecord (tableColumns t)
              | None => []
              end |}
  | _, _ => Err wrongDialect
  end.

(** An environment in which the configuration store works and every
    DSN of the right driver leads to the server [(d, ts)]. *)
Definition serverEnv (d : Dialect) (ts : list Table) : Env :=
  {| now := 0%Z;
     storeFault := None;
     dial := fun driver _ =>
       if String.eqb driver (driverName d) then None else Some "unknown driver";
     ping := fun _ => None;
     query := fun _ q => server_query d ts q |}.

(** The same, with a server that accepts connections but does not answer
    a ping. *)
Definition silentEnv (d : Dialect) (ts : list Table) : Env :=
  {| now := 0%Z;
     storeFault := None;
     dial := dial (serverEnv d ts);
     ping := fun _ => Some "connection refused";
     query := query (serverEnv d ts) |}.

(** ** Fixtures *)

Definition localProfile : Connection.t :=
  Connection.mk 1%N "local" "sqlite" "file:test.db" 0%Z 0%Z.

Definition otherProfile : Connection.t :=
  Connection.mk 2%N "other" "sqlite" "file:other.db" 0%Z 0%Z.

Definition twoProfiles : ConfigDB :=
  {| rows := [localProfile; otherProfile]; sqlite_seq := 2%N |}.

(** Table [t(id int, name text)] with the rows [(1, "a")] and [(2, NULL)]. *)
Definition tableT : Table :=
  {| tableName := "t";
     tableColumns := [ColumnInfo.mk "id" "int" true "" false;
                      ColumnInfo.mk "name" "text" true "" false];
     tableRows := [[VInt 1; VBytes [Byte.x61]]; [VInt 2; VNil]] |}.   (* x61 is the byte of "a" *)

(** The application after [ConnectToDatabase(1)] on [twoProfiles]. *)
Definition connectedApp : App :=
  {| configDB := twoProfiles;
     activeDB := Some {| ConnPool := Some 0 |};
     activeConnID := 1%N |}.

Definition connectedWorld : World :=
  {| nextPool := 1; openPools := {[0]} |}.

(** ** The statements of the specification *)

Definition invariant (a : App) : Prop :=
  ids_positive (configDB a) /\ active_consistent a.

(** [skipping R recs out]: [out] lists, in the order of [recs], one
    result for every record that [R] relates to a result; the records
    that [R] relates to nothing are left out. *)
Inductive skipping {A B : Type} (R : A -> B -> Prop) : list A -> list B -> Prop :=
| skipping_nil : skipping R [] []
| skipping_skip r recs out :
    (forall b, ~ R r b) -> skipping R recs out -> skipping R (r :: recs) out
| skipping_keep r recs b out :
    R r b -> skipping R recs out -> skipping R (r :: recs) (b :: out).

Section Statements.
Context `{conv : SqlConv}.

(** The row count a table is listed with: the answer of
    [SELECT COUNT( * )], and 0 when that query fails. *)
Definition countOrZero (env : Env) (sqlDB : SqlDB) (name : string) (n : Z) : Prop :=
  match QueryRow_Scan_int64 env sqlDB (CountRows name) with
  | Ok total => n = total
  | Err _ => n = 0%Z
  end.

(** The descriptor listed for a one-column record holding a table name. *)
Definition listedTable (env : Env) (sqlDB : SqlDB) (record : list Value)
    (t : TableInfo.t) : Prop :=
  exists v, record = [v] /\
    asString v = Some (TableInfo.Name t) /\
    countOrZero env sqlDB (TableInfo.Name t) (TableInfo.RowCount t) /\
    TableInfo.Schema t = "".




(** The entry of a decoded row for the driver value [v]: null stays an
    explicit null, bytes become text, anything else is kept. *)
Definition entryFor (v : Value) (entry : option Value) : Prop :=
  match v with
  | VNil => entry = Some VNil
  | VBytes b => entry = Some (VString (string_of_list_byte b))
  | _ => entry = Some v
  end.

(** The mapping a record decodes to: its keys are the column names,
    and each column (the last one, should a name occur twice) has the
    entry of its value. *)
Definition decodedRow (columnNames : list string) (record : list Value)
    (row : gmap string Value) : Prop :=
  length record = length columnNames /\
  (forall c, is_Some (row !! c) <-> c ∈ columnNames) /\
  (forall i c v,
      columnNames !! i = Some c -> record !! i = Some v ->
      (forall j, i < j -> columnNames !! j <> Some c) ->
      entryFor v (row !! c)).
End Statements.

(** ** Further statements about the application *)

(** The types [ConnectToDatabase] and [TestConnection] have a case for. *)
Definition supported (ty : string) : Prop := ty = "postgres" \/ ty = "sqlite".

(** No two stored profiles share an id. *)
Definition ids_unique (cfg : ConfigDB) : Prop :=
  NoDup (List.map Connection.ID (rows cfg)).

(** The active connection, when there is one, holds a pool and was opened
    from a profile that is still stored and has a supported type. *)
Definition active_profile_stored (a : App) : Prop :=
  forall adb, activeDB a = Some adb ->
    (exists p, adb = {| ConnPool := Some p |}) /\
    (exists c, find_id (activeConnID a) (rows (configDB a)) = Some c /\
               supported (Connection.Type_ c)).

(** Pool identities are handed out in increasing order. *)
Definition pools_fresh (w : World) : Prop :=
  forall p, p ∈ openPools w -> p < nextPool w.

(** The pool of the active connection is open. *)
Definition active_pool_open (a : App) (w : World) : Prop :=
  forall p, activeDB a = Some {| ConnPool := Some p |} -> p ∈ openPools w.

Definition is_connect (c : Call) : bool :=
  match c with
  | CallConnect _ => true
  | _ => false
  end.

Definition writes_store (c : Call) : bool :=
  match c with
  | CallSave _ _ _ | CallDelete _ => true
  | _ => false
  end.

Ltac case_driver ty :=
  destruct (String.eqb_spec ty "postgres");
  [| destruct (String.eqb_spec ty "sqlite")].

(** * Properties *)

(** ** The configuration store *)

Lemma find_id_some id l c :
  find_id id l = Some c -> Connection.ID c = id /\ In c l.
Proof.
  induction l as [|x l IH]; simpl; [discriminate|].
  destruct (N.eqb_spec (Connection.ID x) id) as [E|E].
  - intros [= <-]. auto.
  - intros Hf. destruct (IH Hf). auto.
Qed.

Lemma find_id_none id l :
  find_id id l = None <-> Forall (fun c => Connection.ID c <> id) l.
Proof.
  induction l as [|x l IH]; simpl.
  - split; [constructor | reflexivity].
  - destruct (N.eqb_spec (Connection.ID x) id) as [E|E].
    + split; [discriminate|]. intros HF. inversion HF; subst. congruence.
    + rewrite IH. split.
      * intros HF. constructor; assumption.
      * intros HF. inversion HF; assumption.
Qed.

Lemma gorm_Delete_removes msg id cfg cfg' :
  gorm_Delete msg cfg id = (None, cfg') ->
  Forall (fun c => Connection.ID c <> id) (rows cfg').
Proof.
  unfold gorm_Delete. destruct msg; [discriminate|].
  intros [= <-]. simpl. apply List.Forall_forall.
  intros c Hc. apply List.filter_In in Hc as [_ Hc].
  destruct (N.eqb_spec (Connection.ID c) id); [discriminate | assumption].
Qed.

Lemma gorm_Delete_ids_positive msg id cfg :
  ids_positive cfg -> ids_positive (snd (gorm_Delete msg cfg id)).
Proof.
  unfold ids_positive, gorm_Delete. destruct msg; simpl; [auto|].
  rewrite !List.Forall_forall. intros H c Hc.
  apply List.filter_In in Hc as [Hc _]. auto.
Qed.

Lemma gorm_Create_ids_positive msg t conn cfg :
  ids_positive cfg -> ids_positive (snd (gorm_Create msg t conn cfg)).
Proof.
  unfold ids_positive, gorm_Create. destruct msg; simpl; [auto|].
  destruct (max_rowid <=? N.max (sqlite_seq cfg) (max_id (rows cfg)))%N; simpl; [auto|].
  intros Hpos. apply List.Forall_app. split; [assumption|].
  constructor; [simpl; lia | constructor].
Qed.

(** ** Connecting *)

(** A successful [ConnectToDatabase] found the profile, created exactly
    one pool and made it the active one; no pool was closed. *)
Lemma ConnectToDatabase_success env id a w a' w' :
  ConnectToDatabase env id a w = (None, a', w') ->
  (exists c, find_id id (rows (configDB a)) = Some c) /\
  a' = {| configDB := configDB a;
          activeDB := Some {| ConnPool := Some (nextPool w) |};
          activeConnID := id |} /\
  w' = {| nextPool := S (nextPool w); openPools := {[nextPool w]} ∪ openPools w |}.
Proof.
  unfold ConnectToDatabase, gorm_Find, gorm_Open.
  destruct (storeFault env); [discriminate|].
  destruct (find_id id (rows (configDB a))) as [c|] eqn:Hfind.
  - case_driver (Connection.Type_ c); try discriminate;
      (destruct (dial env _ _); [discriminate|]; simpl;
       destruct (ping env _); [discriminate|];
       intros [= <- <-]; eauto).
  - simpl. discriminate.
Qed.

(** A failed [ConnectToDatabase] leaves the [App] as it was. *)
Lemma ConnectToDatabase_failure env id a w e a' w' :
  ConnectToDatabase env id a w = (Some e, a', w') -> a' = a.
Proof.
  unfold ConnectToDatabase, gorm_Find, gorm_Open.
  destruct (storeFault env); [intros [= _ <- _]; reflexivity|].
  destruct (find_id id (rows (configDB a))) as [c|].
  - case_driver (Connection.Type_ c);
      try (intros [= _ <- _]; reflexivity);
      (destruct (dial env _ _); [intros [= _ <- _]; reflexivity|]; simpl;
       destruct (ping env _); [intros [= _ <- _]; reflexivity | discriminate]).
  - simpl. intros [= _ <- _]. reflexivity.
Qed.

(** With a working store, an id that no profile has takes the
    [default] branch of the switch on the type of the zero profile. *)
Lemma ConnectToDatabase_absent env id a w :
  storeFault env = None ->
  find_id id (rows (configDB a)) = None ->
  ConnectToDatabase env id a w = (Some (Errorf UnsupportedDatabaseType ""), a, w).
Proof.
  intros Hs Hf. unfold ConnectToDatabase, gorm_Find. rewrite Hs, Hf. reflexivity.
Qed.

(** When the ping fails the pool opened by the call stays open. *)
Lemma ConnectToDatabase_ping_failure env id a w c msg :
  storeFault env = None ->
  find_id id (rows (configDB a)) = Some c ->
  Connection.Type_ c = "postgres" \/ Connection.Type_ c = "sqlite" ->
  dial env (Connection.Type_ c) (Connection.DSN c) = None ->
  ping env (nextPool w) = Some msg ->
  ConnectToDatabase env id a w =
    (Some (Errorf FailedToPingDatabase msg), a,
     {| nextPool := S (nextPool w); openPools := {[nextPool w]} ∪ openPools w |}).
Proof.
  intros Hs Hf Hty Hd Hp. unfold ConnectToDatabase, gorm_Find, gorm_Open.
  rewrite Hs, Hf.
  destruct Hty as [Hty|Hty]; rewrite Hty in *; simpl; rewrite Hd; simpl;
    rewrite Hp; reflexivity.
Qed.

(** C1: an id that is in no stored profile does not make
    [ConnectToDatabase] fail with "connection not found".  With the
    profiles 1 and 2 stored and the store working, [ConnectToDatabase(7)]
    fails with "unsupported database type: " (kind UnsupportedBackend, with
    the empty type of the zero profile); the application and the pools are
    left unchanged. *)
Theorem connect_absent_profile_unsupported :
  find_id 7%N (rows twoProfiles) = None /\
  ConnectToDatabase (serverEnv Sqlite [tableT]) 7%N (NewApp twoProfiles) emptyWorld
    = (Some (Errorf UnsupportedDatabaseType ""), NewApp twoProfiles, emptyWorld) /\
  kind (Errorf UnsupportedDatabaseType "") = Some UnsupportedBackend /\
  kind (Errorf UnsupportedDatabaseType "") <> Some ProfileNotFound.
Proof.
  split; [reflexivity|]. split.
  - apply ConnectToDatabase_absent; reflexivity.
  - split; [reflexivity | discriminate].
Qed.

(** C2: when the DSN opens and the ping fails, [ConnectToDatabase] fails
    with "failed to ping database" (kind ConnectionUnreachable) but the
    pool it opened is not closed.  With profile 1 stored and a server
    that does not answer pings, pool 0 does not exist before
    [ConnectToDatabase(1)] and is open after it. *)
Theorem connect_ping_failure_leaves_pool_open :
  let '(err, a', w') :=
    ConnectToDatabase (silentEnv Sqlite [tableT]) 1%N (NewApp twoProfiles) emptyWorld in
  err = Some (Errorf FailedToPingDatabase "connection refused") /\
  option_map kind err = Some (Some ConnectionUnreachable) /\
  a' = NewApp twoProfiles /\
  (0 ∉ openPools emptyWorld) /\
  (0 ∈ openPools w').
Proof.
  rewrite (ConnectToDatabase_ping_failure _ _ _ _ localProfile "connection refused");
    try reflexivity; [| right; reflexivity].
  simpl. repeat split; set_solver.
Qed.

(** C3: a successful [ConnectToDatabase] replaces the active connection
    but does not close the previous one.  With profile 1 active on pool
    0, [ConnectToDatabase(2)] succeeds, pool 1 becomes the active handle
    with id 2, and pool 0 is still open. *)
Theorem connect_replaces_without_closing :
  let '(err, a', w') :=
    ConnectToDatabase (serverEnv Sqlite [tableT]) 2%N connectedApp connectedWorld in
  err = None /\
  activeDB connectedApp = Some {| ConnPool := Some 0 |} /\
  activeDB a' = Some {| ConnPool := Some 1 |} /\
  activeConnID a' = 2%N /\
  0 ∈ openPools w' /\
  1 ∈ openPools w'.
Proof.
  destruct (ConnectToDatabase _ _ _ _) as [[err a'] w'] eqn:E.
  assert (err = None) as -> by (vm_compute in E; congruence).
  apply ConnectToDatabase_success in E as (_ & -> & ->).
  simpl. repeat split; set_solver.
Qed.

(** C4: [TestConnection] returns the [App] it was given, so [activeDB]
    and [activeConnID] are unchanged on every outcome, and the only pool
    whose state it can change is the one it creates itself: no pool is
    open afterwards that was not open before, and no other pool is
    closed. *)
Theorem TestConnection_frame env dbType dsn a w :
  let '(err, a', w') := TestConnection env dbType dsn a w in
  a' = a /\
  activeDB a' = activeDB a /\
  activeConnID a' = activeConnID a /\
  openPools w' ⊆ openPools w /\
  openPools w ∖ {[nextPool w]} ⊆ openPools w'.
Proof.
  unfold TestConnection, gorm_Open.
  case_driver dbType; try (destruct (dial env _ dsn)); simpl;
    try (destruct (ping env (nextPool w))); simpl;
    repeat split; try reflexivity; intros p; set_unfold; tauto.
Qed.

Lemma TestConnection_same_app env dbType dsn a w :
  snd (fst (TestConnection env dbType dsn a w)) = a.
Proof.
  unfold TestConnection, gorm_Open.
  case_driver dbType; try (destruct (dial env _ dsn)); simpl;
    try (destruct (ping env (nextPool w))); reflexivity.
Qed.

(** ** Deleting *)

Lemma DeleteConnection_success env id a a' :
  DeleteConnection env id a = (None, a') ->
  gorm_Delete (storeFault env) (configDB a) id = (None, configDB a') /\
  (activeConnID a = id -> activeDB a' = None /\ activeConnID a' = 0%N) /\
  (activeConnID a <> id ->
   activeDB a' = activeDB a /\ activeConnID a' = activeConnID a).
Proof.
  unfold DeleteConnection.
  destruct (gorm_Delete (storeFault env) (configDB a) id) as [[e|] cfg];
    [discriminate|].
  destruct (N.eqb_spec (activeConnID a) id); intros [= <-]; simpl;
    repeat split; (reflexivity || congruence || tauto).
Qed.

(** C9: after a successful [DeleteConnection(id)], [GetConnections]
    returns no profile with that id (it only fails when the store itself
    fails); and when [id] was the id of the active connection, the active
    connection is cleared, so [GetTables] fails with "no active database
    connection" (kind NoActiveConnection). *)
Theorem delete_clears_active_and_removes_profile
    `{conv : SqlConv} env env1 env2 id a a' :
  DeleteConnection env id a = (None, a') ->
  match GetConnections env1 a' with
  | Ok l => Forall (fun c => Connection.ID c <> id) l
  | Err _ => storeFault env1 <> None
  end /\
  (activeConnID a = id ->
   activeDB a' = None /\ activeConnID a' = 0%N /\
   GetTables env2 a' = Err (Errorf NoActiveDatabaseConnection "") /\
   kind (Errorf NoActiveDatabaseConnection "") = Some NoActiveConnection).
Proof.
  intros Hdel. apply DeleteConnection_success in Hdel as (Hcfg & Hact & _).
  split.
  - unfold GetConnections, gorm_Find_all.
    destruct (storeFault env1); [discriminate|].
    eapply gorm_Delete_removes, Hcfg.
  - intros Hid. destruct (Hact Hid) as [Hdb Hcid].
    repeat split; try assumption.
    unfold GetTables. rewrite Hdb. reflexivity.
Qed.

Lemma delete_clears_active_and_removes_profile_witness :
  DeleteConnection (serverEnv Sqlite [tableT]) 1%N connectedApp
    = (None, NewApp {| rows := [otherProfile]; sqlite_seq := 2%N |}) /\
  activeConnID connectedApp = 1%N /\
  GetConnections (serverEnv Sqlite [tableT])
    (NewApp {| rows := [otherProfile]; sqlite_seq := 2%N |}) = Ok [otherProfile] /\
  GetTables (serverEnv Sqlite [tableT])
    (NewApp {| rows := [otherProfile]; sqlite_seq := 2%N |})
    = Err (Errorf NoActiveDatabaseConnection "").
Proof.
  split; [reflexivity|]. split; [reflexivity|]. split; [reflexivity|].
  apply (delete_clears_active_and_removes_profile
           (serverEnv Sqlite [tableT]) (serverEnv Sqlite [tableT])
           (serverEnv Sqlite [tableT]) 1%N connectedApp
           (NewApp {| rows := [otherProfile]; sqlite_seq := 2%N |}) eq_refl).
  reflexivity.
Defined.

(** ** The invariant of the active connection *)

Lemma saveConnection_invariant env name dbType dsn a :
  invariant a -> invariant (snd (saveConnection env name dbType dsn a)).
Proof.
  intros [Hpos Hact]. unfold saveConnection.
  pose proof (gorm_Create_ids_positive (storeFault env) (now env)
                (Connection.mk 0%N name dbType dsn 0%Z 0%Z) (configDB a) Hpos) as Hnew.
  destruct (gorm_Create _ _ _ _) as [[c|e] cfg]; simpl in *.
  - split; assumption.
  - split; assumption.
Qed.

Lemma DeleteConnection_invariant env id a :
  invariant a -> invariant (snd (DeleteConnection env id a)).
Proof.
  intros [Hpos Hact]. unfold DeleteConnection.
  pose proof (gorm_Delete_ids_positive (storeFault env) id (configDB a) Hpos) as Hnew.
  destruct (gorm_Delete _ _ _) as [[e|] cfg]; simpl in *.
  - split; assumption.
  - destruct (N.eqb (activeConnID a) id); simpl.
    + split; [assumption|]. unfold active_consistent. simpl. tauto.
    + split; assumption.
Qed.

Lemma ConnectToDatabase_invariant env id a w :
  invariant a -> invariant (snd (fst (ConnectToDatabase env id a w))).
Proof.
  intros [Hpos Hact].
  destruct (ConnectToDatabase env id a w) as [[[e|] a'] w'] eqn:E; simpl.
  - apply ConnectToDatabase_failure in E as ->. split; assumption.
  - apply ConnectToDatabase_success in E as ([c Hc] & -> & _).
    split; [exact Hpos|].
    apply find_id_some in Hc as [Hid Hin].
    unfold ids_positive in Hpos. rewrite List.Forall_forall in Hpos.
    specialize (Hpos c Hin). unfold active_consistent. simpl.
    split; [discriminate | lia].
Qed.

Lemma step_invariant env c s :
  invariant (fst s) -> invariant (fst (step env c s)).
Proof.
  destruct s as [a w]. simpl. intros Hinv.
  destruct c; simpl; try assumption.
  - apply saveConnection_invariant, Hinv.
  - apply DeleteConnection_invariant, Hinv.
  - pose proof (ConnectToDatabase_invariant env id a w Hinv) as Hc.
    destruct (ConnectToDatabase env id a w) as [[e a'] w']. exact Hc.
  - pose proof (TestConnection_same_app env dbType dsn a w) as Ht.
    destruct (TestConnection env dbType dsn a w) as [[e a'] w'].
    simpl in Ht. subst a'. exact Hinv.
Qed.

Lemma run_invariant calls s :
  invariant (fst s) -> invariant (fst (run calls s)).
Proof.
  revert s. induction calls as [|[env c] rest IH]; intros s Hinv; simpl.
  - exact Hinv.
  - apply IH, step_invariant, Hinv.
Qed.

(** C10: in every state reached from the initial [App] (a configuration
    store whose profiles have ids of at least 1, no active connection) by
    any sequence of calls of the public operations, in any environments,
    [activeDB] is nil exactly when [activeConnID] is 0. *)
Theorem active_handle_iff_active_id cfg w calls :
  ids_positive cfg ->
  activeDB (fst (run calls (NewApp cfg, w))) = None <->
  activeConnID (fst (run calls (NewApp cfg, w))) = 0%N.
Proof.
  intros Hpos.
  apply (run_invariant calls (NewApp cfg, w)).
  split; [exact Hpos|]. unfold active_consistent. simpl. tauto.
Qed.

Lemma active_handle_iff_active_id_witness :
  ids_positive twoProfiles /\
  (activeDB (fst (run [(serverEnv Sqlite [tableT], CallSave "third" "postgres" "host=db");
                       (serverEnv Sqlite [tableT], CallConnect 1%N);
                       (serverEnv Sqlite [tableT], CallTestConnection "sqlite" "file:x.db");
                       (serverEnv Sqlite [tableT], CallDelete 2%N)]
                      (NewApp twoProfiles, emptyWorld))) = None <->
   activeConnID (fst (run [(serverEnv Sqlite [tableT], CallSave "third" "postgres" "host=db");
                           (serverEnv Sqlite [tableT], CallConnect 1%N);
                           (serverEnv Sqlite [tableT], CallTestConnection "sqlite" "file:x.db");
                           (serverEnv Sqlite [tableT], CallDelete 2%N)]
                          (NewApp twoProfiles, emptyWorld))) = 0%N).
Proof.
  assert (ids_positive twoProfiles) as Hpos.
  { repeat constructor; simpl; lia. }
  split; [exact Hpos|].
  apply (active_handle_iff_active_id twoProfiles emptyWorld _ Hpos).
Defined.

(** ** Loops that skip what does not decode *)

Lemma skipping_omap {A B : Type} (scan : A -> option B) (R : A -> B -> Prop) recs :
  (forall r b, scan r = Some b -> R r b) ->
  (forall r, scan r = None -> forall b, ~ R r b) ->
  skipping R recs (omap scan recs).
Proof.
  intros Hsome Hnone. induction recs as [|r recs IH]; simpl.
  - constructor.
  - destruct (scan r) as [b|] eqn:E.
    + apply skipping_keep; auto.
    + apply skipping_skip; auto.
Qed.

(** Every record that has a result is represented in the output. *)
Lemma skipping_complete {A B : Type} (R : A -> B -> Prop) recs out r b :
  skipping R recs out -> r ∈ recs -> R r b -> exists b', b' ∈ out /\ R r b'.
Proof.
  induction 1 as [|r0 recs out Hno _ IH|r0 recs b0 out Hr _ IH]; intros Hin HR.
  - inversion Hin.
  - apply elem_of_cons in Hin as [->|Hin]; [exfalso; eapply Hno, HR|].
    apply IH; assumption.
  - apply elem_of_cons in Hin as [->|Hin].
    + exists b0. split; [left | assumption].
    + destruct (IH Hin HR) as (b' & Hb' & HR'). exists b'. split; [by right | assumption].
Qed.

Section Loops.
Context `{conv : SqlConv}.

Lemma GetTables_loop_omap env sqlDB recs tables :
  GetTables_loop env sqlDB recs tables
  = (tables ++ omap (listTable env sqlDB) recs)%list.
Proof.
  revert tables. induction recs as [|r recs IH]; intros tables; simpl.
  - by rewrite app_nil_r.
  - unfold listTable at 1. destruct (scanTableName r) as [name|]; simpl.
    + rewrite IH, <- app_assoc. reflexivity.
    + apply IH.
Qed.


Lemma GetTableData_loop_omap columnNames recs data :
  GetTableData_loop columnNames recs data
  = (data ++ omap (decodeRow columnNames) recs)%list.
Proof.
  revert data. induction recs as [|r recs IH]; intros data; simpl.
  - by rewrite app_nil_r.
  - unfold decodeRow at 1.
    destruct (scanValues (length columnNames) r) as [values|]; simpl.
    + rewrite IH, <- app_assoc. reflexivity.
    + apply IH.
Qed.
End Loops.

(** ** Listing tables *)

Section ListTables.
Context `{conv : SqlConv}.

Lemma listTable_some env sqlDB r t :
  listTable env sqlDB r = Some t -> listedTable env sqlDB r t.
Proof.
  unfold listTable, scanTableName, listedTable, countOrZero.
  destruct r as [|v [|]]; simpl; try discriminate.
  destruct (asString v) as [name|] eqn:Hname; simpl; [|discriminate].
  intros [= <-]. exists v. simpl.
  destruct (QueryRow_Scan_int64 env sqlDB (CountRows name)); auto.
Qed.

Lemma listTable_none env sqlDB r :
  listTable env sqlDB r = None -> forall t, ~ listedTable env sqlDB r t.
Proof.
  unfold listTable, scanTableName, listedTable.
  intros Hnone t (v & -> & Hname & _). simpl in Hnone.
  rewrite Hname in Hnone. discriminate.
Qed.

Lemma listTable_name env sqlDB recs :
  List.map TableInfo.Name (omap (listTable env sqlDB) recs) = omap scanTableName recs.
Proof.
  induction recs as [|r recs IH]; simpl; [reflexivity|].
  unfold listTable at 1. destruct (scanTableName r); simpl;
    [f_equal|]; exact IH.
Qed.

(** C7: with an active connection to a profile of a supported type,
    [GetTables] answers the records [rs] of the list-tables query with
    one descriptor per record that holds a table name, in the order of
    the records; the row count is the answer of the count query and 0
    when that query fails.  In particular every name the backend
    returned as text is listed. *)
Theorem GetTables_lists_every_table env a sqlDB c rs :
  activeDB a = Some {| ConnPool := Some sqlDB |} ->
  gorm_First (storeFault env) (configDB a) (activeConnID a) = Ok c ->
  (Connection.Type_ c = "postgres" /\ query env sqlDB ListTablesPostgres = Ok rs) \/
  (Connection.Type_ c = "sqlite" /\ query env sqlDB ListTablesSqlite = Ok rs) ->
  exists tables,
    GetTables env a = Ok tables /\
    skipping (listedTable env sqlDB) (records rs) tables /\
    List.map TableInfo.Name tables = omap scanTableName (records rs) /\
    (forall name, [VString name] ∈ records rs ->
       exists t, t ∈ tables /\ TableInfo.Name t = name /\
                 countOrZero env sqlDB name (TableInfo.RowCount t)).
Proof.
  intros Hdb Hfirst Hq.
  exists (omap (listTable env sqlDB) (records rs)).
  assert (skipping (listedTable env sqlDB) (records rs)
            (omap (listTable env sqlDB) (records rs))) as Hskip.
  { apply skipping_omap; [apply listTable_some | apply listTable_none]. }
  split; [|split; [exact Hskip | split; [apply listTable_name|]]].
  - unfold GetTables. rewrite Hdb. simpl. rewrite Hfirst.
    destruct Hq as [[-> ->]|[-> ->]]; simpl;
      rewrite GetTables_loop_omap; reflexivity.
  - intros name Hin.
    destruct (skipping_complete _ _ _ _
                (TableInfo.mk name
                   match QueryRow_Scan_int64 env sqlDB (CountRows name) with
                   | Ok n => n
                   | Err _ => 0%Z
                   end "") Hskip Hin)
      as (t & Ht & v & [= <-] & Hname & Hrows & _).
    { exists (VString name). unfold countOrZero. simpl.
      rewrite asString_text.
      destruct (QueryRow_Scan_int64 env sqlDB (CountRows name)); auto. }
    rewrite asString_text in Hname. injection Hname as Hname.
    rewrite <- Hname in Hrows. eauto.
Qed.
End ListTables.

Lemma GetTables_lists_every_table_witness :
  activeDB connectedApp = Some {| ConnPool := Some 0 |} /\
  gorm_First (storeFault (serverEnv Sqlite [tableT])) (configDB connectedApp)
    (activeConnID connectedApp) = Ok localProfile /\
  query (serverEnv Sqlite [tableT]) 0 ListTablesSqlite = Ok (tableNames [tableT]) /\
  exists tables,
    GetTables (serverEnv Sqlite [tableT]) connectedApp = Ok tables /\
    skipping (listedTable (serverEnv Sqlite [tableT]) 0)
      (records (tableNames [tableT])) tables /\
    List.map TableInfo.Name tables = omap scanTableName (records (tableNames [tableT])) /\
    (forall name, [VString name] ∈ records (tableNames [tableT]) ->
       exists t, t ∈ tables /\ TableInfo.Name t = name /\
                 countOrZero (serverEnv Sqlite [tableT]) 0 name (TableInfo.RowCount t)).
Proof.
  split; [reflexivity|]. split; [reflexivity|]. split; [reflexivity|].
  apply (GetTables_lists_every_table (serverEnv Sqlite [tableT]) connectedApp 0
           localProfile (tableNames [tableT]) eq_refl eq_refl).
  right. split; reflexivity.
Defined.

(** ** Listing columns *)

Section ListColumns.
Context `{conv : SqlConv}.






End ListColumns.


(** ** Decoding rows *)

Lemma fillRow_keys columnNames i values (row : gmap string Value) c :
  is_Some (fillRow columnNames i values row !! c) <->
  c ∈ columnNames \/ is_Some (row !! c).
Proof.
  revert i row. induction columnNames as [|n rest IH]; intros i row; simpl.
  - split; [auto|]. intros [H|H]; [inversion H | exact H].
  - rewrite IH, elem_of_cons. destruct (decide (n = c)) as [->|Hne].
    + rewrite lookup_insert_eq. split; [auto|]. intros _. right. eauto.
    + rewrite lookup_insert_ne by exact Hne. split.
      * intros [H|H]; auto.
      * intros [[H|H]|H]; auto. congruence.
Qed.

Lemma fillRow_other columnNames i values (row : gmap string Value) c :
  c ∉ columnNames -> fillRow columnNames i values row !! c = row !! c.
Proof.
  revert i row. induction columnNames as [|n rest IH]; intros i row Hnot; simpl.
  - reflexivity.
  - apply not_elem_of_cons in Hnot as [Hne Hnot].
    rewrite IH by exact Hnot. apply lookup_insert_ne. congruence.
Qed.

(** The entry of a name is written by the last column that has it. *)
Lemma fillRow_last columnNames i values (row : gmap string Value) j c :
  columnNames !! j = Some c ->
  (forall k, j < k -> columnNames !! k <> Some c) ->
  fillRow columnNames i values row !! c
  = Some (cell (default VNil (values !! (i + j)))).
Proof.
  revert i row j. induction columnNames as [|n rest IH]; intros i row j Hj Hlast.
  - discriminate.
  - simpl. destruct j as [|j]; simpl in Hj.
    + injection Hj as ->. rewrite fillRow_other.
      * rewrite Nat.add_0_r. apply lookup_insert_eq.
      * intros Hin. apply list_elem_of_lookup in Hin as [k Hk].
        apply (Hlast (S k)); [lia | exact Hk].
    + replace (i + S j) with (S i + j) by lia.
      apply IH; [exact Hj|]. intros k Hk. apply (Hlast (S k)). lia.
Qed.

Lemma entryFor_cell v : entryFor v (Some (cell v)).
Proof. destruct v; reflexivity. Qed.

Lemma decodeRow_some columnNames r row :
  decodeRow columnNames r = Some row -> decodedRow columnNames r row.
Proof.
  unfold decodeRow, scanValues.
  destruct (Nat.eqb_spec (length r) (length columnNames)) as [Hlen|];
    simpl; [|discriminate].
  intros [= <-]. split; [exact Hlen|]. split.
  - intros c. rewrite fillRow_keys, lookup_empty. split.
    + intros [H|[x Hx]]; [exact H | discriminate].
    + auto.
  - intros i c v Hc Hv Hlast.
    rewrite (fillRow_last _ 0 _ _ i c Hc Hlast). simpl. rewrite Hv. simpl.
    apply entryFor_cell.
Qed.

Lemma decodeRow_none columnNames r :
  decodeRow columnNames r = None -> forall row, ~ decodedRow columnNames r row.
Proof.
  unfold decodeRow, scanValues. intros Hnone row [Hlen _].
  rewrite Hlen, Nat.eqb_refl in Hnone. discriminate.
Qed.

Section GetPage.
Context `{conv : SqlConv}.

(** What a successful [GetTableData] went through. *)
Lemma GetTableData_success env tableName offset limit a td :
  GetTableData env tableName offset limit a = Ok td ->
  exists sqlDB cols total rs columnNames,
    activeDB a = Some {| ConnPool := Some sqlDB |} /\
    getColumnInfo env a {| ConnPool := Some sqlDB |} tableName = Ok cols /\
    QueryRow_Scan_int64 env sqlDB (CountRows tableName) = Ok total /\
    query env sqlDB (SelectPage tableName limit offset) = Ok rs /\
    columns rs = Ok columnNames /\
    td = TableData.mk cols (omap (decodeRow columnNames) (records rs)) total.
Proof.
  unfold GetTableData.
  destruct (activeDB a) as [[[sqlDB|]]|]; simpl; try discriminate.
  destruct (getColumnInfo env a _ tableName) as [cols|] eqn:Hcols; [|discriminate].
  destruct (QueryRow_Scan_int64 env sqlDB _) as [total|] eqn:Htotal; [|discriminate].
  destruct (query env sqlDB _) as [rs|] eqn:Hrs; [|discriminate].
  destruct (columns rs) as [columnNames|] eqn:Hnames; [|discriminate].
  rewrite GetTableData_loop_omap. intros [= <-].
  exists sqlDB, cols, total, rs, columnNames. repeat split; assumption.
Qed.

(** C6: with an active connection whose page query answers the records
    [rs] under the column names [columnNames], the rows of every page
    [GetTableData] returns are the records decoded in order, the
    records that do not scan being left out: a decoded row has exactly
    the column names as keys, and the entry of a column is an explicit
    null for a null value, the text of the bytes for a byte sequence,
    and the value itself otherwise.  No record makes the call fail: once
    the column information and the total are there, a page is returned. *)
Theorem GetTableData_decodes_rows env tableName offset limit a sqlDB rs columnNames :
  activeDB a = Some {| ConnPool := Some sqlDB |} ->
  query env sqlDB (SelectPage tableName limit offset) = Ok rs ->
  columns rs = Ok columnNames ->
  (forall td,
     GetTableData env tableName offset limit a = Ok td ->
     skipping (decodedRow columnNames) (records rs) (TableData.Rows td)) /\
  (forall cols total,
     getColumnInfo env a {| ConnPool := Some sqlDB |} tableName = Ok cols ->
     QueryRow_Scan_int64 env sqlDB (CountRows tableName) = Ok total ->
     exists rows,
       GetTableData env tableName offset limit a = Ok (TableData.mk cols rows total)).
Proof.
  intros Ha Hrs Hnames. split.
  - intros td Hok.
    apply GetTableData_success in Hok
      as (sqlDB' & cols & total & rs' & names' & Ha' & _ & _ & Hrs' & Hnames' & ->).
    rewrite Ha in Ha'. injection Ha' as <-.
    rewrite Hrs in Hrs'. injection Hrs' as <-.
    rewrite Hnames in Hnames'. injection Hnames' as <-.
    simpl. apply skipping_omap; [apply decodeRow_some | apply decodeRow_none].
  - intros cols total Hcols Htotal. unfold GetTableData.
    rewrite Ha. simpl. rewrite Hcols, Htotal, Hrs, Hnames. eauto.
Qed.
End GetPage.

Lemma GetTableData_decodes_rows_witness :
  activeDB connectedApp = Some {| ConnPool := Some 0 |} /\
  (exists rs columnNames,
     query (serverEnv Sqlite [tableT]) 0 (SelectPage "t" 2 0) = Ok rs /\
     columns rs = Ok columnNames /\
     (forall td,
        GetTableData (serverEnv Sqlite [tableT]) "t" 0 2 connectedApp = Ok td ->
        skipping (decodedRow columnNames) (records rs) (TableData.Rows td)) /\
     (forall cols total,
        getColumnInfo (serverEnv Sqlite [tableT]) connectedApp
          {| ConnPool := Some 0 |} "t" = Ok cols ->
        QueryRow_Scan_int64 (serverEnv Sqlite [tableT]) 0 (CountRows "t") = Ok total ->
        exists rows,
          GetTableData (serverEnv Sqlite [tableT]) "t" 0 2 connectedApp
          = Ok (TableData.mk cols rows total))).
Proof.
  split; [reflexivity|].
  eexists. eexists. split; [reflexivity|]. split; [reflexivity|].
  apply (GetTableData_decodes_rows (serverEnv Sqlite [tableT]) "t" 0 2 connectedApp 0
           _ _ eq_refl eq_refl eq_refl).
Defined.

(** ** Page sizes, against a server holding tables *)

Lemma omap_decodeRow_length columnNames recs :
  Forall (fun r => length r = length columnNames) recs ->
  length (omap (decodeRow columnNames) recs) = length recs.
Proof.
  induction 1 as [|r recs Hr _ IH]; simpl; [reflexivity|].
  unfold decodeRow at 1, scanValues. rewrite Hr, Nat.eqb_refl. simpl.
  f_equal. exact IH.
Qed.




Section PageSize.
Context `{conv : SqlConv}.


End PageSize.



(** ** The scenario of the specification, run on the model *)

(** A first start: the profile saved on an empty store gets id 1, and
    connecting to it makes pool 0 the active connection. *)
Example save_then_connect :
  let '(a, w) :=
    run [(serverEnv Sqlite [tableT], CallSave "local" "sqlite" "file:test.db");
         (serverEnv Sqlite [tableT], CallConnect 1%N)]
        (NewApp emptyConfigDB, emptyWorld) in
  List.map Connection.ID (rows (configDB a)) = [1%N] /\
  activeDB a = Some {| ConnPool := Some 0 |} /\
  activeConnID a = 1%N /\
  nextPool w = 1.
Proof. repeat split. Qed.

(** [ListTables()] on the fixture: one table [t] with two rows. *)
Example list_tables_of_fixture :
  GetTables (serverEnv Sqlite [tableT]) connectedApp = Ok [TableInfo.mk "t" 2 ""].
Proof. reflexivity. Qed.

(** [GetPage("t", 0, 1)] on the fixture: total 2 and the first row, its
    bytes turned into text. *)
Example first_page_of_fixture :
  exists td,
    GetTableData (serverEnv Sqlite [tableT]) "t" 0 1 connectedApp = Ok td /\
    TableData.Total td = 2%Z /\
    List.map ColumnInfo.Name (TableData.Columns td) = ["id"; "name"] /\
    List.map (fun row => (row !! "id", row !! "name")) (TableData.Rows td)
    = [(Some (VInt 1), Some (VString "a"))].
Proof. eexists. repeat split. Qed.

(** The null of the second row is an entry of the decoded row. *)
Example null_is_an_entry :
  fillRow ["id"; "name"] 0 [VInt 2; VNil] ∅ !! "name" = Some VNil.
Proof. reflexivity. Qed.

(** A probe while profile 1 is active leaves the application and the
    open pools as they were. *)
Example probe_on_fixture :
  let '(err, a, w) :=
    TestConnection (serverEnv Sqlite [tableT]) "sqlite" "file:x.db"
      connectedApp connectedWorld in
  err = None /\ a = connectedApp /\ openPools w = openPools connectedWorld.
Proof. repeat split. Qed.

(** * Further properties of the application *)

(** ** Saving and listing profiles *)

Lemma max_id_bound l :
  Forall (fun c => (Connection.ID c <= max_id l)%N) l.
Proof.
  induction l as [|x l IH]; simpl; constructor; [lia|].
  eapply List.Forall_impl; [|exact IH]. simpl. intros c Hc. lia.
Qed.

Lemma find_id_app_last id l c :
  Forall (fun c0 => Connection.ID c0 <> id) l -> Connection.ID c = id ->
  find_id id (l ++ [c]) = Some c.
Proof.
  intros Hl Hc. induction Hl as [|x l Hx _ IH]; simpl.
  - rewrite Hc, N.eqb_refl. reflexivity.
  - destruct (N.eqb_spec (Connection.ID x) id); [contradiction | exact IH].
Qed.

Lemma find_id_app_found id l k c :
  find_id id l = Some c -> find_id id (l ++ k) = Some c.
Proof.
  induction l as [|x l IH]; simpl; [discriminate|].
  destruct (N.eqb (Connection.ID x) id); auto.
Qed.

Lemma find_id_filter_ne id id' l :
  id' <> id ->
  find_id id' (List.filter (fun c => negb (N.eqb (Connection.ID c) id)) l)
  = find_id id' l.
Proof.
  intros Hne. induction l as [|x l IH]; simpl; [reflexivity|].
  destruct (N.eqb_spec (Connection.ID x) id) as [Hx|Hx]; simpl.
  - destruct (N.eqb_spec (Connection.ID x) id'); [congruence | exact IH].
  - rewrite IH. reflexivity.
Qed.

Lemma filter_absent id l :
  find_id id l = None ->
  List.filter (fun c => negb (N.eqb (Connection.ID c) id)) l = l.
Proof.
  induction l as [|x l IH]; simpl; [reflexivity|].
  destruct (N.eqb (Connection.ID x) id); simpl; [discriminate|].
  intros Hf. rewrite IH by exact Hf. reflexivity.
Qed.

(** What a successful [gorm_Create] stored. *)
Lemma gorm_Create_success fault t conn cfg c cfg' :
  gorm_Create fault t conn cfg = (Ok c, cfg') ->
  rows cfg' = (rows cfg ++ [c])%list /\
  Connection.Name c = Connection.Name conn /\
  Connection.Type_ c = Connection.Type_ conn /\
  Connection.DSN c = Connection.DSN conn /\
  Connection.CreatedAt c = t /\ Connection.UpdatedAt c = t /\
  Forall (fun c0 => (Connection.ID c0 < Connection.ID c)%N) (rows cfg).
Proof.
  unfold gorm_Create. destruct fault; [discriminate|].
  destruct (max_rowid <=? N.max (sqlite_seq cfg) (max_id (rows cfg)))%N;
    [discriminate|].
  intros [= <- <-]. simpl. repeat split.
  eapply List.Forall_impl; [|apply max_id_bound]. simpl. intros c0 Hc0. lia.
Qed.

(** X1: after a successful [saveConnection], [GetConnections] (when the
    store answers) returns the profiles stored before, in their order,
    followed by one new profile with the given name, type and DSN.  The
    new profile has an id above every id stored before, so a lookup of
    that id finds it, and the active connection is not touched. *)
Theorem saveConnection_then_GetConnections env env1 name dbType dsn a a' :
  saveConnection env name dbType dsn a = (None, a') ->
  storeFault env1 = None ->
  exists c,
    GetConnections env1 a' = Ok (rows (configDB a) ++ [c])%list /\
    Connection.Name c = name /\ Connection.Type_ c = dbType /\
    Connection.DSN c = dsn /\
    Forall (fun c0 => (Connection.ID c0 < Connection.ID c)%N) (rows (configDB a)) /\
    find_id (Connection.ID c) (rows (configDB a')) = Some c /\
    activeDB a' = activeDB a /\ activeConnID a' = activeConnID a.
Proof.
  unfold saveConnection. intros Hsave Hs.
  destruct (gorm_Create _ _ _ _) as [[c|e] cfg] eqn:Hc; [|discriminate].
  injection Hsave as <-.
  apply gorm_Create_success in Hc as (Hrows & Hn & Ht & Hd & _ & _ & Hlt).
  exists c. unfold GetConnections, gorm_Find_all. rewrite Hs. simpl.
  rewrite Hrows. repeat split; try assumption.
  apply find_id_app_last; [|reflexivity].
  eapply List.Forall_impl; [|exact Hlt]. simpl. intros c0 Hc0. lia.
Qed.

Lemma saveConnection_then_GetConnections_witness :
  (exists a',
     saveConnection (serverEnv Sqlite [tableT]) "third" "postgres" "host=db" connectedApp
       = (None, a') /\
     storeFault (serverEnv Sqlite [tableT]) = None /\
     exists c,
       GetConnections (serverEnv Sqlite [tableT]) a'
         = Ok (rows (configDB connectedApp) ++ [c])%list /\
       Connection.Name c = "third" /\ Connection.Type_ c = "postgres" /\
       Connection.DSN c = "host=db" /\
       Forall (fun c0 => (Connection.ID c0 < Connection.ID c)%N)
         (rows (configDB connectedApp)) /\
       find_id (Connection.ID c) (rows (configDB a')) = Some c /\
       activeDB a' = activeDB connectedApp /\
       activeConnID a' = activeConnID connectedApp).
Proof.
  eexists. split; [reflexivity|]. split; [reflexivity|].
  apply (saveConnection_then_GetConnections (serverEnv Sqlite [tableT])
           (serverEnv Sqlite [tableT]) "third" "postgres" "host=db" connectedApp);
    reflexivity.
Defined.

(** ** Failing calls *)

(** X2: a call of [saveConnection], [DeleteConnection] or
    [ConnectToDatabase] that returns an error leaves the [App] exactly as
    it was.  The error of the first two is a storage error; the error of
    [ConnectToDatabase] says "connection not found", "unsupported database
    type" or that the database could not be reached. *)
Theorem failed_call_leaves_app env name dbType dsn id a w :
  match saveConnection env name dbType dsn a with
  | (Some e, a') => a' = a /\ kind e = Some StorageError
  | (None, _) => True
  end /\
  match DeleteConnection env id a with
  | (Some e, a') => a' = a /\ kind e = Some StorageError
  | (None, _) => True
  end /\
  match ConnectToDatabase env id a w with
  | (Some e, a', _) =>
      a' = a /\
      (kind e = Some ProfileNotFound \/ kind e = Some UnsupportedBackend \/
       kind e = Some ConnectionUnreachable)
  | (None, _, _) => True
  end.
Proof.
  split; [|split].
  - unfold saveConnection.
    destruct (gorm_Create _ _ _ _) as [[c|e] cfg]; simpl; auto.
  - unfold DeleteConnection.
    destruct (gorm_Delete _ _ _) as [[e|] cfg]; simpl; [auto|].
    destruct (N.eqb (activeConnID a) id); exact I.
  - unfold ConnectToDatabase, gorm_Find, gorm_Open.
    destruct (storeFault env); simpl; [auto|].
    destruct (find_id id (rows (configDB a))) as [c|]; simpl; [|auto].
    case_driver (Connection.Type_ c); simpl; auto;
      (destruct (dial env _ _); simpl; [auto|];
       destruct (ping env _); simpl; auto).
Qed.

(** ** Ids of profiles *)

Lemma filter_ids_NoDup id l :
  NoDup (List.map Connection.ID l) ->
  NoDup (List.map Connection.ID
           (List.filter (fun c => negb (N.eqb (Connection.ID c) id)) l)).
Proof.
  induction l as [|x l IH]; simpl; [auto|].
  intros Hnd. apply NoDup_cons in Hnd as [Hx Hl].
  destruct (negb (N.eqb (Connection.ID x) id)); simpl; [|auto].
  apply NoDup_cons. split; [|auto].
  intros Hin. apply Hx. apply list_elem_of_In.
  apply list_elem_of_In, List.in_map_iff in Hin as (c & Hc & Hin).
  apply List.filter_In in Hin as [Hin _].
  apply List.in_map_iff. eauto.
Qed.

Lemma gorm_Create_ids_unique fault t conn cfg :
  ids_unique cfg -> ids_unique (snd (gorm_Create fault t conn cfg)).
Proof.
  unfold ids_unique. intros Hnd.
  destruct (gorm_Create fault t conn cfg) as [[c|e] cfg'] eqn:Hc; simpl.
  - apply gorm_Create_success in Hc as (-> & _ & _ & _ & _ & _ & Hlt).
    rewrite List.map_app. simpl. apply NoDup_app. split; [exact Hnd|].
    split; [|apply NoDup_singleton].
    intros i Hi Hic. apply list_elem_of_In in Hi.
    apply List.in_map_iff in Hi as (c0 & <- & Hc0).
    apply list_elem_of_singleton in Hic.
    rewrite List.Forall_forall in Hlt. specialize (Hlt c0 Hc0). lia.
  - unfold gorm_Create in Hc. destruct fault; [injection Hc as _ <-; exact Hnd|].
    destruct (max_rowid <=? N.max (sqlite_seq cfg) (max_id (rows cfg)))%N;
      [injection Hc as _ <-; exact Hnd | discriminate].
Qed.

(** Only [saveConnection] and [DeleteConnection] write the store. *)
Lemma step_configDB env c s :
  configDB (fst (step env c s)) =
  match c with
  | CallSave name dbType dsn =>
      configDB (snd (saveConnection env name dbType dsn (fst s)))
  | CallDelete id => configDB (snd (DeleteConnection env id (fst s)))
  | _ => configDB (fst s)
  end.
Proof.
  destruct s as [a w]. destruct c; simpl; try reflexivity.
  - destruct (ConnectToDatabase env id a w) as [[[e|] a'] w'] eqn:E; simpl.
    + apply ConnectToDatabase_failure in E as ->. reflexivity.
    + apply ConnectToDatabase_success in E as (_ & -> & _). reflexivity.
  - pose proof (TestConnection_same_app env dbType dsn a w) as Ht.
    destruct (TestConnection env dbType dsn a w) as [[e a'] w'].
    simpl in Ht. subst a'. reflexivity.
Qed.

Lemma step_ids_unique env c s :
  ids_unique (configDB (fst s)) -> ids_unique (configDB (fst (step env c s))).
Proof.
  intros Hu. rewrite step_configDB. destruct s as [a w]. simpl in *.
  destruct c; try exact Hu.
  - unfold saveConnection.
    pose proof (gorm_Create_ids_unique (storeFault env) (now env)
                  (Connection.mk 0%N name dbType dsn 0%Z 0%Z) (configDB a) Hu) as Hn.
    destruct (gorm_Create _ _ _ _) as [[c|e] cfg]; simpl in *; assumption.
  - unfold DeleteConnection, gorm_Delete.
    destruct (storeFault env); simpl; [exact Hu|].
    destruct (N.eqb (activeConnID a) id); simpl; apply filter_ids_NoDup, Hu.
Qed.

(** X3: profile ids stay unique.  Starting from a store in which no two
    profiles share an id, no sequence of calls, in any environments,
    leads to a store with two profiles of the same id. *)
Theorem ids_stay_unique cfg w calls :
  ids_unique cfg ->
  ids_unique (configDB (fst (run calls (NewApp cfg, w)))).
Proof.
  intros Hu.
  assert (forall s, ids_unique (configDB (fst s)) ->
                    ids_unique (configDB (fst (run calls s)))) as Hrun.
  { induction calls as [|[env c] rest IH]; intros s Hs; simpl; [exact Hs|].
    apply IH, step_ids_unique, Hs. }
  apply Hrun. exact Hu.
Qed.

Lemma ids_stay_unique_witness :
  ids_unique twoProfiles /\
  ids_unique
    (configDB
       (fst (run [(serverEnv Sqlite [tableT], CallDelete 1%N);
                  (serverEnv Sqlite [tableT], CallSave "again" "sqlite" "file:test.db");
                  (serverEnv Sqlite [tableT], CallSave "third" "postgres" "host=db")]
                 (NewApp twoProfiles, emptyWorld)))).
Proof.
  assert (ids_unique twoProfiles) as Hu.
  { unfold ids_unique. simpl. apply NoDup_cons.
    split; [rewrite list_elem_of_singleton; discriminate | apply NoDup_singleton]. }
  split; [exact Hu|].
  apply (ids_stay_unique twoProfiles emptyWorld _ Hu).
Defined.

(** ** Deleting profiles *)

(** X4: a successful [DeleteConnection(id)] removes nothing but the
    profile [id]: every other id is looked up as before, and when [id] is
    not the id of the active connection the active connection stays. *)
Theorem DeleteConnection_keeps_others env id a a' :
  DeleteConnection env id a = (None, a') ->
  (forall id', id' <> id ->
     find_id id' (rows (configDB a')) = find_id id' (rows (configDB a))) /\
  (activeConnID a <> id ->
   activeDB a' = activeDB a /\ activeConnID a' = activeConnID a).
Proof.
  intros Hdel. apply DeleteConnection_success in Hdel as (Hcfg & _ & Hother).
  split; [|exact Hother].
  intros id' Hne. unfold gorm_Delete in Hcfg.
  destruct (storeFault env); [discriminate|].
  injection Hcfg as <-. simpl. apply find_id_filter_ne, Hne.
Qed.

Lemma DeleteConnection_keeps_others_witness :
  DeleteConnection (serverEnv Sqlite [tableT]) 2%N connectedApp
    = (None, {| configDB := {| rows := [localProfile]; sqlite_seq := 2%N |};
                activeDB := Some {| ConnPool := Some 0 |};
                activeConnID := 1%N |}) /\
  (forall id', id' <> 2%N ->
     find_id id' [localProfile] = find_id id' (rows (configDB connectedApp))) /\
  (activeConnID connectedApp <> 2%N ->
   Some {| ConnPool := Some 0 |} = activeDB connectedApp /\
   1%N = activeConnID connectedApp).
Proof.
  split; [reflexivity|].
  apply (DeleteConnection_keeps_others (serverEnv Sqlite [tableT]) 2%N connectedApp
           {| configDB := {| rows := [localProfile]; sqlite_seq := 2%N |};
              activeDB := Some {| ConnPool := Some 0 |};
              activeConnID := 1%N |} eq_refl).
Defined.

(** X5: deleting an id that no profile has is not an error.  With a
    working store the call succeeds and the store is unchanged; unless
    the id is the one recorded as active, the whole [App] is unchanged. *)
Theorem DeleteConnection_missing_id env id a :
  storeFault env = None ->
  find_id id (rows (configDB a)) = None ->
  exists a',
    DeleteConnection env id a = (None, a') /\
    configDB a' = configDB a /\
    (activeConnID a <> id -> a' = a).
Proof.
  intros Hs Hf. unfold DeleteConnection, gorm_Delete. rewrite Hs.
  rewrite (filter_absent _ _ Hf).
  destruct a as [[rs sq] adb aid]. simpl in *.
  destruct (N.eqb_spec aid id) as [->|Hne]; eexists; (split; [reflexivity|]);
    simpl; split; try reflexivity; intros H; congruence.
Qed.

Lemma DeleteConnection_missing_id_witness :
  storeFault (serverEnv Sqlite [tableT]) = None /\
  find_id 7%N (rows (configDB connectedApp)) = None /\
  exists a',
    DeleteConnection (serverEnv Sqlite [tableT]) 7%N connectedApp = (None, a') /\
    configDB a' = configDB connectedApp /\
    (activeConnID connectedApp <> 7%N -> a' = connectedApp).
Proof.
  split; [reflexivity|]. split; [reflexivity|].
  apply (DeleteConnection_missing_id (serverEnv Sqlite [tableT]) 7%N connectedApp);
    reflexivity.
Defined.

(** ** When connecting succeeds *)

Lemma ConnectToDatabase_outcome env id a w :
  fst (fst (ConnectToDatabase env id a w)) = None <->
  storeFault env = None /\
  exists c, find_id id (rows (configDB a)) = Some c /\
            supported (Connection.Type_ c) /\
            dial env (Connection.Type_ c) (Connection.DSN c) = None /\
            ping env (nextPool w) = None.
Proof.
  unfold ConnectToDatabase, gorm_Find, gorm_Open, supported.
  destruct (storeFault env) as [msg|]; simpl.
  { split; [discriminate | intros [? _]; discriminate]. }
  destruct (find_id id (rows (configDB a))) as [c|]; simpl.
  - assert (forall drv, Connection.Type_ c = drv ->
              fst (fst match dial env drv (Connection.DSN c) with
                       | Some m => (Some (Errorf FailedToConnectToDatabase m), a, w)
                       | None =>
                           match ping env (nextPool w) with
                           | Some m => (Some (Errorf FailedToPingDatabase m), a,
                                        {| nextPool := S (nextPool w);
                                           openPools := {[nextPool w]} ∪ openPools w |})
                           | None =>
                               (None,
                                {| configDB := configDB a;
                                   activeDB := Some {| ConnPool := Some (nextPool w) |};
                                   activeConnID := id |},
                                {| nextPool := S (nextPool w);
                                   openPools := {[nextPool w]} ∪ openPools w |})
                           end
                       end) = None <->
              dial env (Connection.Type_ c) (Connection.DSN c) = None /\
              ping env (nextPool w) = None) as Hopen.
    { intros drv <-. destruct (dial env _ _); simpl.
      - split; [discriminate | intros [? _]; discriminate].
      - destruct (ping env _); simpl.
        + split; [discriminate | intros [_ ?]; discriminate].
        + tauto. }
    case_driver (Connection.Type_ c).
    + specialize (Hopen "postgres" e). revert Hopen.
      destruct (dial env "postgres" _); simpl;
        [|destruct (ping env (nextPool w)); simpl];
        intros Hopen; rewrite Hopen; split;
        try (intros [Hd Hp]; split; [reflexivity|]; exists c; tauto);
        intros (_ & c' & [= <-] & _ & Hd & Hp); tauto.
    + specialize (Hopen "sqlite" e). revert Hopen.
      destruct (dial env "sqlite" _); simpl;
        [|destruct (ping env (nextPool w)); simpl];
        intros Hopen; rewrite Hopen; split;
        try (intros [Hd Hp]; split; [reflexivity|]; exists c; tauto);
        intros (_ & c' & [= <-] & _ & Hd & Hp); tauto.
    + simpl. split; [discriminate|].
      intros (_ & c' & [= <-] & [?|?] & _); contradiction.
  - split; [discriminate|]. intros (_ & c' & Hc & _). discriminate.
Qed.

(** X6: [ConnectToDatabase(id)] succeeds exactly when the store answers,
    a profile with that id is stored, its type is "postgres" or "sqlite",
    the open succeeds and the ping of the new pool succeeds.  It then
    makes the new pool and [id] the active connection and leaves the
    store as it was. *)
Theorem ConnectToDatabase_succeeds_iff env id a w :
  (fst (fst (ConnectToDatabase env id a w)) = None <->
   storeFault env = None /\
   exists c, find_id id (rows (configDB a)) = Some c /\
             supported (Connection.Type_ c) /\
             dial env (Connection.Type_ c) (Connection.DSN c) = None /\
             ping env (nextPool w) = None) /\
  match ConnectToDatabase env id a w with
  | (None, a', _) =>
      activeDB a' = Some {| ConnPool := Some (nextPool w) |} /\
      activeConnID a' = id /\ configDB a' = configDB a
  | (Some _, _, _) => True
  end.
Proof.
  split; [apply ConnectToDatabase_outcome|].
  destruct (ConnectToDatabase env id a w) as [[[e|] a'] w'] eqn:E; [exact I|].
  apply ConnectToDatabase_success in E as (_ & -> & _). auto.
Qed.

(** X7: a probe predicts a connect.  For a stored profile and a working
    store, [TestConnection] with the type and DSN of the profile succeeds
    exactly when [ConnectToDatabase] with its id does, in the same
    environment. *)
Theorem probe_predicts_connect env id a w c :
  storeFault env = None ->
  find_id id (rows (configDB a)) = Some c ->
  fst (fst (TestConnection env (Connection.Type_ c) (Connection.DSN c) a w)) = None <->
  fst (fst (ConnectToDatabase env id a w)) = None.
Proof.
  intros Hs Hf. unfold TestConnection, ConnectToDatabase, gorm_Find, gorm_Open.
  rewrite Hs, Hf.
  case_driver (Connection.Type_ c); simpl;
    try (split; discriminate);
    (destruct (dial env _ _); simpl; [split; discriminate|];
     destruct (ping env (nextPool w)); simpl;
     [split; discriminate | tauto]).
Qed.

Lemma probe_predicts_connect_witness :
  storeFault (silentEnv Sqlite [tableT]) = None /\
  find_id 2%N (rows (configDB connectedApp)) = Some otherProfile /\
  (fst (fst (TestConnection (silentEnv Sqlite [tableT])
               (Connection.Type_ otherProfile) (Connection.DSN otherProfile)
               connectedApp connectedWorld)) = None <->
   fst (fst (ConnectToDatabase (silentEnv Sqlite [tableT]) 2%N
               connectedApp connectedWorld)) = None).
Proof.
  split; [reflexivity|]. split; [reflexivity|].
  apply (probe_predicts_connect (silentEnv Sqlite [tableT]) 2%N connectedApp
           connectedWorld otherProfile eq_refl eq_refl).
Defined.


(** ** What sequences of calls preserve *)

Lemma run_preserves (P : App * World -> Prop) (ok : Call -> bool) calls s :
  (forall env c s0, ok c = true -> P s0 -> P (step env c s0)) ->
  forallb (fun ec => ok (snd ec)) calls = true ->
  P s -> P (run calls s).
Proof.
  intros Hstep. revert s. induction calls as [|[env c] rest IH]; intros s Hok Hs.
  - exact Hs.
  - simpl in *. apply andb_prop in Hok as [Hc Hrest].
    apply IH; [exact Hrest|]. apply Hstep; assumption.
Qed.

Lemma run_invariant_all (P : App * World -> Prop) calls s :
  (forall env c s0, P s0 -> P (step env c s0)) -> P s -> P (run calls s).
Proof.
  intros Hstep. revert s. induction calls as [|[env c] rest IH]; intros s Hs.
  - exact Hs.
  - simpl. apply IH, Hstep, Hs.
Qed.

Lemma step_no_connect env c s :
  is_connect c = false -> activeDB (fst s) = None ->
  activeDB (fst (step env c s)) = None.
Proof.
  destruct s as [a w]. simpl. intros Hc Ha. destruct c; simpl; try assumption.
  - unfold saveConnection.
    destruct (gorm_Create _ _ _ _) as [[c|e] cfg]; simpl; assumption.
  - unfold DeleteConnection.
    destruct (gorm_Delete _ _ _) as [[e|] cfg]; simpl; [assumption|].
    destruct (N.eqb (activeConnID a) id); simpl; [reflexivity | assumption].
  - discriminate.
  - pose proof (TestConnection_same_app env dbType dsn a w) as Ht.
    destruct (TestConnection env dbType dsn a w) as [[e a'] w'].
    simpl in Ht. subst a'. assumption.
Qed.

Section Reachable.
Context `{conv : SqlConv}.

(** X9: only [ConnectToDatabase] creates an active connection.  After
    any sequence of calls without a connect, from the initial [App],
    [GetTables] and [GetTableData] fail with "no active database
    connection", whatever the environment and the arguments. *)
Theorem no_connect_no_active cfg w calls env tableName offset limit :
  forallb (fun ec => negb (is_connect (snd ec))) calls = true ->
  activeDB (fst (run calls (NewApp cfg, w))) = None /\
  GetTables env (fst (run calls (NewApp cfg, w)))
    = Err (Errorf NoActiveDatabaseConnection "") /\
  GetTableData env tableName offset limit (fst (run calls (NewApp cfg, w)))
    = Err (Errorf NoActiveDatabaseConnection "").
Proof.
  intros Hcalls.
  assert (activeDB (fst (run calls (NewApp cfg, w))) = None) as Hnone.
  { apply (run_preserves (fun s => activeDB (fst s) = None)
             (fun c => negb (is_connect c)) calls (NewApp cfg, w)).
    - intros env0 c s0 Hc. apply step_no_connect.
      destruct (is_connect c); [discriminate | reflexivity].
    - exact Hcalls.
    - reflexivity. }
  split; [exact Hnone|].
  unfold GetTables, GetTableData. rewrite Hnone. split; reflexivity.
Qed.

Lemma step_active_profile_stored env c s :
  active_profile_stored (fst s) -> active_profile_stored (fst (step env c s)).
Proof.
  destruct s as [a w]. simpl. intros Hinv. destruct c; simpl; try assumption.
  - unfold saveConnection.
    destruct (gorm_Create _ _ _ _) as [[c|e] cfg] eqn:Hc; simpl; [|assumption].
    apply gorm_Create_success in Hc as (Hrows & _).
    intros adb Hadb. simpl in *. destruct (Hinv adb Hadb) as (Hp & c0 & Hf & Hty).
    split; [exact Hp|]. exists c0. rewrite Hrows.
    split; [apply find_id_app_found, Hf | exact Hty].
  - unfold DeleteConnection, gorm_Delete.
    destruct (storeFault env); simpl; [assumption|].
    destruct (N.eqb_spec (activeConnID a) id) as [Heq|Hne]; simpl.
    + intros adb Hadb. discriminate.
    + intros adb Hadb. simpl in *. destruct (Hinv adb Hadb) as (Hp & c0 & Hf & Hty).
      split; [exact Hp|]. exists c0.
      rewrite find_id_filter_ne by exact Hne. auto.
  - pose proof (ConnectToDatabase_outcome env id a w) as Hout.
    destruct (ConnectToDatabase env id a w) as [[[e|] a'] w'] eqn:E; simpl in *.
    + apply ConnectToDatabase_failure in E as ->. exact Hinv.
    + apply ConnectToDatabase_success in E as (_ & -> & _).
      destruct Hout as [Hout _].
      destruct (Hout eq_refl) as (_ & c & Hf & Hty & _).
      intros adb [= <-]. simpl. split; [eauto|]. exists c. auto.
  - pose proof (TestConnection_same_app env dbType dsn a w) as Ht.
    destruct (TestConnection env dbType dsn a w) as [[e a'] w'].
    simpl in Ht. subst a'. exact Hinv.
Qed.

Lemma reachable_active_profile_stored cfg w calls :
  active_profile_stored (fst (run calls (NewApp cfg, w))).
Proof.
  apply (run_invariant_all (fun s => active_profile_stored (fst s))).
  - intros env c s0. apply step_active_profile_stored.
  - intros adb Hadb. discriminate.
Qed.

(** X10: in every state reached from the initial [App], the profile of
    the active connection is still stored and has a supported type.
    With a working store, [GetTables] can therefore fail in two ways
    only: "no active database connection", or "failed to query tables"
    when the list-tables query itself fails. *)
Theorem GetTables_errors_when_reachable cfg w calls env e :
  storeFault env = None ->
  GetTables env (fst (run calls (NewApp cfg, w))) = Err e ->
  e = Errorf NoActiveDatabaseConnection "" \/
  exists msg, e = Errorf FailedToQueryTables msg.
Proof.
  intros Hs. pose proof (reachable_active_profile_stored cfg w calls) as Hinv.
  revert Hinv. generalize (fst (run calls (NewApp cfg, w))). intros a Hinv.
  unfold GetTables, gorm_First. rewrite Hs.
  destruct (activeDB a) as [adb|] eqn:Ha; [|intros [= <-]; auto].
  destruct (Hinv adb Ha) as ([p ->] & c & -> & [Hty|Hty]); simpl;
    rewrite Hty; simpl; destruct (query env p _); try discriminate;
    intros [= <-]; eauto.
Qed.

(** X11: in every state reached from the initial [App], with a working
    store, when [GetTableData] fails with "failed to get column info" it
    is the column query that failed: the message carries the error of
    the query sent on the active pool, never "record not found" or
    "unsupported database type". *)
Theorem GetTableData_column_info_when_reachable
    cfg w calls env tableName offset limit msg :
  storeFault env = None ->
  GetTableData env tableName offset limit (fst (run calls (NewApp cfg, w)))
    = Err (Errorf FailedToGetColumnInfo msg) ->
  exists p e0,
    activeDB (fst (run calls (NewApp cfg, w))) = Some {| ConnPool := Some p |} /\
    (query env p (ColumnsPostgres tableName) = Err e0 \/
     query env p (PragmaTableInfo tableName) = Err e0) /\
    msg = Error e0.
Proof.
  intros Hs. pose proof (reachable_active_profile_stored cfg w calls) as Hinv.
  revert Hinv. generalize (fst (run calls (NewApp cfg, w))). intros a Hinv.
  unfold GetTableData.
  destruct (activeDB a) as [adb|] eqn:Ha; [|discriminate].
  destruct (Hinv adb Ha) as ([p ->] & c & Hf & Hty). simpl.
  unfold getColumnInfo, gorm_First. simpl. rewrite Hs, Hf.
  destruct Hty as [Hty|Hty]; rewrite Hty; simpl.
  - destruct (query env p (ColumnsPostgres tableName)) as [rs|e0] eqn:Hq.
    + destruct (QueryRow_Scan_int64 env p _); [|discriminate].
      destruct (query env p (SelectPage _ _ _)) as [rs'|]; [|discriminate].
      destruct (columns rs'); discriminate.
    + intros [= <-]. exists p, e0. auto.
  - destruct (query env p (PragmaTableInfo tableName)) as [rs|e0] eqn:Hq.
    + destruct (QueryRow_Scan_int64 env p _); [|discriminate].
      destruct (query env p (SelectPage _ _ _)) as [rs'|]; [|discriminate].
      destruct (columns rs'); discriminate.
    + intros [= <-]. exists p, e0. auto.
Qed.
End Reachable.

Lemma no_connect_no_active_witness :
  forallb (fun ec => negb (is_connect (snd ec)))
    [(serverEnv Sqlite [tableT], CallSave "third" "postgres" "host=db");
     (serverEnv Sqlite [tableT], CallTestConnection "sqlite" "file:test.db");
     (serverEnv Sqlite [tableT], CallDelete 1%N);
     (serverEnv Sqlite [tableT], CallListTables)] = true /\
  activeDB
    (fst (run [(serverEnv Sqlite [tableT], CallSave "third" "postgres" "host=db");
               (serverEnv Sqlite [tableT], CallTestConnection "sqlite" "file:test.db");
               (serverEnv Sqlite [tableT], CallDelete 1%N);
               (serverEnv Sqlite [tableT], CallListTables)]
              (NewApp twoProfiles, emptyWorld))) = None /\
  GetTables (serverEnv Sqlite [tableT])
    (fst (run [(serverEnv Sqlite [tableT], CallSave "third" "postgres" "host=db");
               (serverEnv Sqlite [tableT], CallTestConnection "sqlite" "file:test.db");
               (serverEnv Sqlite [tableT], CallDelete 1%N);
               (serverEnv Sqlite [tableT], CallListTables)]
              (NewApp twoProfiles, emptyWorld)))
    = Err (Errorf NoActiveDatabaseConnection "") /\
  GetTableData (serverEnv Sqlite [tableT]) "t" 0 10
    (fst (run [(serverEnv Sqlite [tableT], CallSave "third" "postgres" "host=db");
               (serverEnv Sqlite [tableT], CallTestConnection "sqlite" "file:test.db");
               (serverEnv Sqlite [tableT], CallDelete 1%N);
               (serverEnv Sqlite [tableT], CallListTables)]
              (NewApp twoProfiles, emptyWorld)))
    = Err (Errorf NoActiveDatabaseConnection "").
Proof.
  split; [reflexivity|].
  apply (no_connect_no_active twoProfiles emptyWorld _ (serverEnv Sqlite [tableT])
           "t" 0%Z 10%Z).
  reflexivity.
Defined.

Lemma GetTables_errors_when_reachable_witness :
  storeFault (serverEnv Postgres [tableT]) = None /\
  GetTables (serverEnv Postgres [tableT])
    (fst (run [(serverEnv Sqlite [tableT], CallConnect 1%N)]
              (NewApp twoProfiles, emptyWorld)))
    = Err (Errorf FailedToQueryTables "syntax error") /\
  (Errorf FailedToQueryTables "syntax error" = Errorf NoActiveDatabaseConnection "" \/
   exists msg, Errorf FailedToQueryTables "syntax error" = Errorf FailedToQueryTables msg).
Proof.
  split; [reflexivity|]. split; [reflexivity|].
  apply (GetTables_errors_when_reachable twoProfiles emptyWorld
           [(serverEnv Sqlite [tableT], CallConnect 1%N)]
           (serverEnv Postgres [tableT]) _ eq_refl eq_refl).
Defined.

Lemma GetTableData_column_info_when_reachable_witness :
  storeFault (serverEnv Postgres [tableT]) = None /\
  GetTableData (serverEnv Postgres [tableT]) "t" 0 1
    (fst (run [(serverEnv Sqlite [tableT], CallConnect 1%N)]
              (NewApp twoProfiles, emptyWorld)))
    = Err (Errorf FailedToGetColumnInfo "syntax error") /\
  exists p e0,
    activeDB (fst (run [(serverEnv Sqlite [tableT], CallConnect 1%N)]
                       (NewApp twoProfiles, emptyWorld)))
      = Some {| ConnPool := Some p |} /\
    (query (serverEnv Postgres [tableT]) p (ColumnsPostgres "t") = Err e0 \/
     query (serverEnv Postgres [tableT]) p (PragmaTableInfo "t") = Err e0) /\
    "syntax error" = Error e0.
Proof.
  split; [reflexivity|]. split; [reflexivity|].
  apply (GetTableData_column_info_when_reachable twoProfiles emptyWorld
           [(serverEnv Sqlite [tableT], CallConnect 1%N)]
           (serverEnv Postgres [tableT]) "t" 0%Z 1%Z "syntax error" eq_refl eq_refl).
Defined.

(** ** The pool of the active connection *)

Lemma ConnectToDatabase_world env id a w :
  snd (ConnectToDatabase env id a w) = w \/
  snd (ConnectToDatabase env id a w)
  = {| nextPool := S (nextPool w); openPools := {[nextPool w]} ∪ openPools w |}.
Proof.
  unfold ConnectToDatabase, gorm_Find, gorm_Open.
  destruct (storeFault env); simpl; [auto|].
  destruct (find_id id (rows (configDB a))) as [c|]; simpl; [|auto].
  case_driver (Connection.Type_ c); simpl; auto;
    (destruct (dial env _ _); simpl; [auto|];
     destruct (ping env _); simpl; auto).
Qed.

Lemma TestConnection_world env dbType dsn a w :
  snd (TestConnection env dbType dsn a w) = w \/
  snd (TestConnection env dbType dsn a w)
  = {| nextPool := S (nextPool w);
       openPools := ({[nextPool w]} ∪ openPools w) ∖ {[nextPool w]} |}.
Proof.
  unfold TestConnection, gorm_Open.
  case_driver dbType; simpl; auto;
    (destruct (dial env _ _); simpl; [auto|];
     destruct (ping env _); simpl; auto).
Qed.

Lemma step_active_pool_open env c s :
  pools_fresh (snd s) /\ active_pool_open (fst s) (snd s) ->
  pools_fresh (snd (step env c s)) /\
  active_pool_open (fst (step env c s)) (snd (step env c s)).
Proof.
  destruct s as [a w]. simpl. intros [Hfresh Hopen].
  destruct c; simpl; try (split; assumption).
  - split; [exact Hfresh|]. unfold saveConnection.
    destruct (gorm_Create _ _ _ _) as [[c|e] cfg]; simpl; exact Hopen.
  - split; [exact Hfresh|]. unfold DeleteConnection.
    destruct (gorm_Delete _ _ _) as [[e|] cfg]; simpl; [exact Hopen|].
    destruct (N.eqb (activeConnID a) id); simpl; [|exact Hopen].
    intros p Hp. discriminate.
  - pose proof (ConnectToDatabase_world env id a w) as Hw.
    destruct (ConnectToDatabase env id a w) as [[[e|] a'] w'] eqn:E; simpl in *.
    + apply ConnectToDatabase_failure in E as ->.
      destruct Hw as [->| ->]; [split; assumption|].
      split.
      * intros p Hp. simpl in *. apply elem_of_union in Hp as [Hp|Hp].
        -- apply elem_of_singleton in Hp. lia.
        -- specialize (Hfresh p Hp). lia.
      * intros p Hp. simpl. apply elem_of_union. right. apply Hopen, Hp.
    + apply ConnectToDatabase_success in E as (_ & -> & ->).
      split.
      * intros p Hp. simpl in *. apply elem_of_union in Hp as [Hp|Hp].
        -- apply elem_of_singleton in Hp. lia.
        -- specialize (Hfresh p Hp). lia.
      * intros p [= <-]. simpl. apply elem_of_union. left.
        apply elem_of_singleton. reflexivity.
  - pose proof (TestConnection_same_app env dbType dsn a w) as Ht.
    pose proof (TestConnection_world env dbType dsn a w) as Hw.
    destruct (TestConnection env dbType dsn a w) as [[e a'] w'].
    simpl in *. subst a'.
    destruct Hw as [->| ->]; [split; assumption|].
    split.
    + intros p Hp. simpl in *. apply elem_of_difference in Hp as [Hp _].
      apply elem_of_union in Hp as [Hp|Hp].
      * apply elem_of_singleton in Hp. lia.
      * specialize (Hfresh p Hp). lia.
    + intros p Hp. simpl. apply elem_of_difference. split.
      * apply elem_of_union. right. apply Hopen, Hp.
      * intros Hn. apply elem_of_singleton in Hn.
        specialize (Hfresh p (Hopen p Hp)). lia.
Qed.

(** X12: the pool of the active connection is never closed.  Starting
    with no active connection and pools numbered below the next one, after
    any sequence of calls the pool held by [activeDB] is open; in
    particular no [TestConnection] closes it. *)
Theorem active_pool_stays_open cfg w calls p :
  pools_fresh w ->
  activeDB (fst (run calls (NewApp cfg, w))) = Some {| ConnPool := Some p |} ->
  p ∈ openPools (snd (run calls (NewApp cfg, w))).
Proof.
  intros Hfresh.
  assert (pools_fresh (snd (run calls (NewApp cfg, w))) /\
          active_pool_open (fst (run calls (NewApp cfg, w)))
            (snd (run calls (NewApp cfg, w)))) as [_ Hopen].
  { apply (run_invariant_all
             (fun s => pools_fresh (snd s) /\ active_pool_open (fst s) (snd s))).
    - intros env c s0. apply step_active_pool_open.
    - split; [exact Hfresh|]. intros q Hq. discriminate. }
  apply Hopen.
Qed.

Lemma active_pool_stays_open_witness :
  pools_fresh emptyWorld /\
  activeDB
    (fst (run [(serverEnv Sqlite [tableT], CallConnect 1%N);
               (serverEnv Sqlite [tableT], CallTestConnection "sqlite" "file:x.db");
               (silentEnv Sqlite [tableT], CallConnect 2%N)]
              (NewApp twoProfiles, emptyWorld))) = Some {| ConnPool := Some 0 |} /\
  0 ∈ openPools
        (snd (run [(serverEnv Sqlite [tableT], CallConnect 1%N);
                   (serverEnv Sqlite [tableT], CallTestConnection "sqlite" "file:x.db");
                   (silentEnv Sqlite [tableT], CallConnect 2%N)]
                  (NewApp twoProfiles, emptyWorld))).
Proof.
  assert (pools_fresh emptyWorld) as Hfresh.
  { intros p Hp. apply not_elem_of_empty in Hp. destruct Hp. }
  split; [exact Hfresh|]. split; [reflexivity|].
  apply (active_pool_stays_open twoProfiles emptyWorld _ 0 Hfresh).
  reflexivity.
Defined.

(** ** Calls that do not write the store *)

(** X13: only [saveConnection] and [DeleteConnection] write the
    configuration store.  A sequence of calls without them
    ([ConnectToDatabase], [TestConnection], [GetTables], [GetTableData],
    [GetConnections]) leaves the store as it was, so [GetConnections]
    returns the same profiles after it as before. *)
Theorem reads_leave_store cfg w calls env :
  forallb (fun ec => negb (writes_store (snd ec))) calls = true ->
  configDB (fst (run calls (NewApp cfg, w))) = cfg /\
  GetConnections env (fst (run calls (NewApp cfg, w)))
  = GetConnections env (NewApp cfg).
Proof.
  intros Hcalls.
  assert (configDB (fst (run calls (NewApp cfg, w))) = cfg) as Hcfg.
  { apply (run_preserves (fun s => configDB (fst s) = cfg)
             (fun c => negb (writes_store c)) calls (NewApp cfg, w)).
    - intros env0 c s0 Hc Hs0. rewrite step_configDB.
      destruct c; try exact Hs0; discriminate.
    - exact Hcalls.
    - reflexivity. }
  split; [exact Hcfg|]. unfold GetConnections. rewrite Hcfg. reflexivity.
Qed.

Lemma reads_leave_store_witness :
  forallb (fun ec => negb (writes_store (snd ec)))
    [(serverEnv Sqlite [tableT], CallConnect 1%N);
     (serverEnv Sqlite [tableT], CallGetPage "t" 0 10);
     (silentEnv Sqlite [tableT], CallTestConnection "postgres" "host=db");
     (serverEnv Sqlite [tableT], CallConnect 7%N)] = true /\
  configDB
    (fst (run [(serverEnv Sqlite [tableT], CallConnect 1%N);
               (serverEnv Sqlite [tableT], CallGetPage "t" 0 10);
               (silentEnv Sqlite [tableT], CallTestConnection "postgres" "host=db");
               (serverEnv Sqlite [tableT], CallConnect 7%N)]
              (NewApp twoProfiles, emptyWorld))) = twoProfiles /\
  GetConnections (serverEnv Sqlite [tableT])
    (fst (run [(serverEnv Sqlite [tableT], CallConnect 1%N);
               (serverEnv Sqlite [tableT], CallGetPage "t" 0 10);
               (silentEnv Sqlite [tableT], CallTestConnection "postgres" "host=db");
               (serverEnv Sqlite [tableT], CallConnect 7%N)]
              (NewApp twoProfiles, emptyWorld)))
  = GetConnections (serverEnv Sqlite [tableT]) (NewApp twoProfiles).
Proof.
  split; [reflexivity|].
  apply (reads_leave_store twoProfiles emptyWorld _ (serverEnv Sqlite [tableT])).
  reflexivity.
Defined.

(** ** Pages *)

Lemma omap_decodeRow_count columnNames recs :
  length (omap (decodeRow columnNames) recs)
  = length (List.filter (fun r => Nat.eqb (length r) (length columnNames)) recs).
Proof.
  induction recs as [|r recs IH]; simpl; [reflexivity|].
  unfold decodeRow at 1, scanValues.
  destruct (Nat.eqb (length r) (length columnNames)); simpl; [f_equal|]; exact IH.
Qed.

Lemma fillRow_dom columnNames i values (row : gmap string Value) :
  dom (fillRow columnNames i values row) = list_to_set columnNames ∪ dom row.
Proof.
  revert i row. induction columnNames as [|n rest IH]; intros i row; simpl.
  - apply set_eq. intros x. rewrite elem_of_union, elem_of_empty. tauto.
  - rewrite IH, dom_insert_L. apply set_eq. intros x.
    rewrite !elem_of_union. tauto.
Qed.

Section Pages.
Context `{conv : SqlConv}.

(** X14: a page holds one row for each record of the page query that
    has as many values as there are column names, and nothing else: never
    more rows than records, and exactly as many when every record has the
    right number of values. *)
Theorem GetTableData_row_count env tableName offset limit a td :
  GetTableData env tableName offset limit a = Ok td ->
  exists p rs columnNames,
    activeDB a = Some {| ConnPool := Some p |} /\
    query env p (SelectPage tableName limit offset) = Ok rs /\
    columns rs = Ok columnNames /\
    length (TableData.Rows td)
    = length (List.filter (fun r => Nat.eqb (length r) (length columnNames))
                (records rs)) /\
    length (TableData.Rows td) <= length (records rs) /\
    (Forall (fun r => length r = length columnNames) (records rs) ->
     length (TableData.Rows td) = length (records rs)).
Proof.
  intros Hok.
  apply GetTableData_success in Hok
    as (p & cols & total & rs & names & Ha & _ & _ & Hrs & Hnames & ->).
  exists p, rs, names. simpl. rewrite omap_decodeRow_count.
  repeat split; try assumption.
  - apply List.filter_length_le.
  - intros Hall. rewrite <- omap_decodeRow_count.
    apply omap_decodeRow_length, Hall.
Qed.

(** X15: the keys of every row of a page are the column names of the
    page query; when these are pairwise distinct a row has as many
    entries as there are columns (columns of the same name share one
    entry). *)
Theorem GetTableData_row_keys env tableName offset limit a td :
  GetTableData env tableName offset limit a = Ok td ->
  exists p rs columnNames,
    activeDB a = Some {| ConnPool := Some p |} /\
    query env p (SelectPage tableName limit offset) = Ok rs /\
    columns rs = Ok columnNames /\
    Forall (fun row : gmap string Value =>
              dom row = list_to_set columnNames /\
              (NoDup columnNames -> size row = length columnNames))
      (TableData.Rows td).
Proof.
  intros Hok.
  apply GetTableData_success in Hok
    as (p & cols & total & rs & names & Ha & _ & _ & Hrs & Hnames & ->).
  exists p, rs, names. simpl. repeat split; try assumption.
  induction (records rs) as [|r recs IH]; simpl; [constructor|].
  unfold decodeRow at 1, scanValues.
  destruct (Nat.eqb (length r) (length names)); simpl; [|exact IH].
  constructor; [|exact IH].
  assert (dom (fillRow names 0 r ∅) = (list_to_set names : gset string)) as Hdom.
  { rewrite fillRow_dom, dom_empty_L. apply set_eq. intros x.
    rewrite elem_of_union, elem_of_empty. tauto. }
  split; [exact Hdom|].
  intros Hnd. rewrite <- size_dom, Hdom. apply size_list_to_set, Hnd.
Qed.

(** X16: the columns and the total of a page do not depend on the
    offset and the limit: two pages of one table, read in the same
    environment, carry the same column descriptors and the same total. *)
Theorem GetTableData_same_columns_and_total
    env tableName offset1 limit1 offset2 limit2 a td1 td2 :
  GetTableData env tableName offset1 limit1 a = Ok td1 ->
  GetTableData env tableName offset2 limit2 a = Ok td2 ->
  TableData.Columns td1 = TableData.Columns td2 /\
  TableData.Total td1 = TableData.Total td2.
Proof.
  intros H1 H2.
  apply GetTableData_success in H1
    as (p1 & cols1 & total1 & rs1 & names1 & Ha1 & Hc1 & Ht1 & _ & _ & ->).
  apply GetTableData_success in H2
    as (p2 & cols2 & total2 & rs2 & names2 & Ha2 & Hc2 & Ht2 & _ & _ & ->).
  rewrite Ha1 in Ha2. injection Ha2 as <-.
  rewrite Hc1 in Hc2. injection Hc2 as <-.
  rewrite Ht1 in Ht2. injection Ht2 as <-.
  split; reflexivity.
Qed.
End Pages.

Lemma GetTableData_row_count_witness :
  exists td,
    GetTableData (serverEnv Sqlite [tableT]) "t" 1 5 connectedApp = Ok td /\
    exists p rs columnNames,
      activeDB connectedApp = Some {| ConnPool := Some p |} /\
      query (serverEnv Sqlite [tableT]) p (SelectPage "t" 5 1) = Ok rs /\
      columns rs = Ok columnNames /\
      length (TableData.Rows td)
      = length (List.filter (fun r => Nat.eqb (length r) (length columnNames))
                  (records rs)) /\
      length (TableData.Rows td) <= length (records rs) /\
      (Forall (fun r => length r = length columnNames) (records rs) ->
       length (TableData.Rows td) = length (records rs)).
Proof.
  eexists. split; [reflexivity|].
  apply (GetTableData_row_count (serverEnv Sqlite [tableT]) "t" 1 5 connectedApp).
  reflexivity.
Defined.

Lemma GetTableData_row_keys_witness :
  exists td,
    GetTableData (serverEnv Sqlite [tableT]) "t" 0 2 connectedApp = Ok td /\
    exists p rs columnNames,
      activeDB connectedApp = Some {| ConnPool := Some p |} /\
      query (serverEnv Sqlite [tableT]) p (SelectPage "t" 2 0) = Ok rs /\
      columns rs = Ok columnNames /\
      Forall (fun row : gmap string Value =>
                dom row = list_to_set columnNames /\
                (NoDup columnNames -> size row = length columnNames))
        (TableData.Rows td).
Proof.
  eexists. split; [reflexivity|].
  apply (GetTableData_row_keys (serverEnv Sqlite [tableT]) "t" 0 2 connectedApp).
  reflexivity.
Defined.

Lemma GetTableData_same_columns_and_total_witness :
  exists td1 td2,
    GetTableData (serverEnv Sqlite [tableT]) "t" 0 1 connectedApp = Ok td1 /\
    GetTableData (serverEnv Sqlite [tableT]) "t" 1 1 connectedApp = Ok td2 /\
    TableData.Columns td1 = TableData.Columns td2 /\
    TableData.Total td1 = TableData.Total td2.
Proof.
  eexists. eexists. split; [reflexivity|]. split; [reflexivity|].
  apply (GetTableData_same_columns_and_total (serverEnv Sqlite [tableT]) "t"
           0 1 1 1 connectedApp); reflexivity.
Defined.

(** ** Which pool is read *)

Section ActivePool.
Context `{conv : SqlConv}.

Lemma GetTables_loop_ext env1 env2 p recs tables :
  (forall q, query env1 p q = query env2 p q) ->
  GetTables_loop env1 p recs tables = GetTables_loop env2 p recs tables.
Proof.
  intros Hq. revert tables. induction recs as [|r recs IH]; intros tables; simpl.
  - reflexivity.
  - destruct (scanTableName r) as [name|]; [|apply IH].
    unfold QueryRow_Scan_int64. rewrite Hq. apply IH.
Qed.

(** X17: [GetTables] and [GetTableData] read the configuration store and
    the pool of the active connection, and nothing else: in two
    environments with the same store fault in which that pool answers
    every query alike, they return the same result, whatever the other
    pools (an earlier connection, a probe) answer. *)
Theorem introspection_reads_active_pool env1 env2 a p tableName offset limit :
  activeDB a = Some {| ConnPool := Some p |} ->
  storeFault env1 = storeFault env2 ->
  (forall q, query env1 p q = query env2 p q) ->
  GetTables env1 a = GetTables env2 a /\
  GetTableData env1 tableName offset limit a
  = GetTableData env2 tableName offset limit a.
Proof.
  intros Ha Hs Hq. split.
  - unfold GetTables. rewrite Ha, Hs. simpl.
    destruct (gorm_First _ _ _) as [c|e]; [|reflexivity].
    rewrite !Hq.
    case_driver (Connection.Type_ c); simpl; try reflexivity;
      (destruct (query env2 p _) as [rs|]; [|reflexivity];
       rewrite (GetTables_loop_ext env1 env2 p _ _ Hq); reflexivity).
  - unfold GetTableData, getColumnInfo, QueryRow_Scan_int64.
    rewrite Ha, Hs. simpl. rewrite !Hq. reflexivity.
Qed.
End ActivePool.

Lemma introspection_reads_active_pool_witness :
  activeDB connectedApp = Some {| ConnPool := Some 0 |} /\
  storeFault (serverEnv Sqlite [tableT]) = storeFault (silentEnv Sqlite [tableT]) /\
  (forall q, query (serverEnv Sqlite [tableT]) 0 q = query (silentEnv Sqlite [tableT]) 0 q) /\
  GetTables (serverEnv Sqlite [tableT]) connectedApp
  = GetTables (silentEnv Sqlite [tableT]) connectedApp /\
  GetTableData (serverEnv Sqlite [tableT]) "t" 0 2 connectedApp
  = GetTableData (silentEnv Sqlite [tableT]) "t" 0 2 connectedApp.
Proof.
  split; [reflexivity|]. split; [reflexivity|]. split; [reflexivity|].
  apply (introspection_reads_active_pool (serverEnv Sqlite [tableT])
           (silentEnv Sqlite [tableT]) connectedApp 0 "t" 0%Z 2%Z eq_refl eq_refl).
  reflexivity.
Defined.

(** ** Errors of the reading operations *)

Section ReadErrors.
Context `{conv : SqlConv}.

(** X18: the reading operations report every failure through one of
    their own messages, never as a bare library error.  [GetConnections]
    fails only with "failed to get connections" and otherwise returns the
    stored profiles in storage order; an error of [GetTables] is of kind
    NoActiveConnection, ConnectionUnreachable, StorageError,
    UnsupportedBackend or QueryFailed; an error of [GetTableData] is of
    kind NoActiveConnection, ConnectionUnreachable, ColumnInfoUnavailable,
    CountFailed or QueryFailed. *)
Theorem read_errors_are_wrapped env tableName offset limit a :
  match GetConnections env a with
  | Ok l => l = rows (configDB a)
  | Err e => exists msg, e = Errorf FailedToGetConnections msg
  end /\
  match GetTables env a with
  | Ok _ => True
  | Err e =>
      In (kind e) [Some NoActiveConnection; Some ConnectionUnreachable;
                   Some StorageError; Some UnsupportedBackend; Some QueryFailed]
  end /\
  match GetTableData env tableName offset limit a with
  | Ok _ => True
  | Err e =>
      In (kind e) [Some NoActiveConnection; Some ConnectionUnreachable;
                   Some ColumnInfoUnavailable; Some CountFailed; Some QueryFailed]
  end.
Proof.
  split; [|split].
  - unfold GetConnections, gorm_Find_all. destruct (storeFault env); eauto.
  - unfold GetTables.
    destruct (activeDB a) as [[[p|]]|]; simpl; auto.
    destruct (gorm_First _ _ _) as [c|e]; simpl; auto.
    case_driver (Connection.Type_ c); simpl; auto 7;
      (destruct (query env p _); simpl; auto 7).
  - unfold GetTableData.
    destruct (activeDB a) as [[[p|]]|]; simpl; auto.
    destruct (getColumnInfo env a _ tableName); simpl; auto.
    destruct (QueryRow_Scan_int64 env p _); simpl; auto 7.
    destruct (query env p _) as [rs|]; simpl; auto 7.
    destruct (columns rs); simpl; auto 7.
Qed.
End ReadErrors.

(** ** Pools after a probe *)

(** X19: a probe leaks no pool.  When pools are numbered below the next
    one, the pools open after [TestConnection] are exactly the pools that
    were open before it, whether the probe succeeds or fails. *)
Theorem TestConnection_leaves_pools env dbType dsn a w :
  pools_fresh w ->
  openPools (snd (TestConnection env dbType dsn a w)) = openPools w.
Proof.
  intros Hfresh.
  destruct (TestConnection_world env dbType dsn a w) as [-> | ->]; [reflexivity|].
  simpl. apply set_eq. intros p.
  rewrite elem_of_difference, elem_of_union, elem_of_singleton. split.
  - intros [[->|Hp] Hne]; [contradiction | exact Hp].
  - intros Hp. split; [right; exact Hp|].
    intros ->. specialize (Hfresh _ Hp). lia.
Qed.

Lemma TestConnection_leaves_pools_witness :
  pools_fresh connectedWorld /\
  openPools (snd (TestConnection (silentEnv Sqlite [tableT]) "sqlite" "file:x.db"
                    connectedApp connectedWorld))
  = openPools connectedWorld.
Proof.
  assert (pools_fresh connectedWorld) as Hfresh.
  { intros p Hp. unfold connectedWorld in Hp. simpl in Hp.
    apply elem_of_singleton in Hp. subst p. simpl. lia. }
  split; [exact Hfresh|].
  apply (TestConnection_leaves_pools (silentEnv Sqlite [tableT]) "sqlite" "file:x.db"
           connectedApp connectedWorld Hfresh).
Defined.
